(** * fork.py: fork a GitHub repository, wait for the fork, ensure a release

    A shallow embedding of [fork_github_repo] and [ensure_github_release]
    (with [verify_response] and the Python primitives they rely on) and the
    properties of the polling loop that waits for the fork to become
    visible.

    The outside world (the two REST calls of [requests] and [time.sleep])
    is a state that every call threads through; each call is recorded in a
    trace, so that the number of existence checks and of sleeps performed by
    a run can be counted. *)

From Stdlib Require Import String Ascii List ZArith Lia Bool PrimFloat DecimalString.
Import ListNotations.

Set Warnings "-register-all".

Open Scope string_scope.

(** ** Python values *)

(** What [Response.json()] can return.  An object is kept as the list of its
    items; [dict_get] reads the first item with the key. *)
Inductive json : Type :=
| JNull
| JBool (b : bool)
| JInt (n : Z)
| JFloat (f : float)
| JStr (s : string)
| JList (l : list json)
| JDict (d : list (string * json)).

(** The exceptions that can leave the two functions.  [RequestException]
    stands for whatever [requests.get] / [requests.post] raise themselves. *)
Inductive exn : Type :=
| RuntimeError (msg : string)
| ValueError (msg : string)
| AttributeError
| TypeError
| KeyError
| IndexError
| JSONDecodeError
| RequestException (msg : string).

(** [bool(v)], as used by [if v:], [not v] and [a or b]. *)
Definition truthy (v : json) : bool :=
  match v with
  | JNull => false
  | JBool b => b
  | JInt n => negb (n =? 0)%Z
  | JFloat f => negb (PrimFloat.eqb f 0%float)
  | JStr s => negb (s =? "")
  | JList l => match l with [] => false | _ :: _ => true end
  | JDict d => match d with [] => false | _ :: _ => true end
  end.

Fixpoint dict_get (d : list (string * json)) (k : string) : option json :=
  match d with
  | [] => None
  | (k', v) :: d' => if k' =? k then Some v else dict_get d' k
  end.

(** [v.get(k)]: only a dict has the method; a missing key gives [None]. *)
Definition py_get (v : json) (k : string) : exn + json :=
  match v with
  | JDict d => inr (match dict_get d k with Some x => x | None => JNull end)
  | _ => inl AttributeError
  end.

(** [v[0]]. *)
Definition py_item0 (v : json) : exn + json :=
  match v with
  | JList (x :: _) => inr x
  | JList [] => inl IndexError
  | JStr (String c _) => inr (JStr (String c ""))
  | JStr "" => inl IndexError
  | JDict _ => inl KeyError
  | JNull | JBool _ | JInt _ | JFloat _ => inl TypeError
  end.

(** ** Python strings *)

(** [a or b] on strings. *)
Definition or_str (a b : string) : string := if a =? "" then b else a.

(** [s.split(sep, maxsplit)] for a one-character separator; [None] is the
    default [maxsplit = -1]. *)
Fixpoint py_split (sep : ascii) (maxsplit : option nat) (s : string) : list string :=
  match s with
  | "" => [""]
  | String c s' =>
      let continue :=
        match py_split sep maxsplit s' with
        | h :: t => String c h :: t
        | [] => [String c ""]
        end in
      if Ascii.eqb c sep then
        match maxsplit with
        | None => "" :: py_split sep None s'
        | Some (S m) => "" :: py_split sep (Some m) s'
        | Some O => continue
        end
      else continue
  end.

(** [a, b = l]. *)
Definition unpack2 (l : list string) : exn + (string * string) :=
  match l with
  | [a; b] => inr (a, b)
  | [] => inl (ValueError "not enough values to unpack (expected 2, got 0)")
  | [_] => inl (ValueError "not enough values to unpack (expected 2, got 1)")
  | _ => inl (ValueError "too many values to unpack (expected 2)")
  end.

(** The characters [str.strip()] removes, among the first 256 code points. *)
Definition is_space (c : ascii) : bool :=
  let n := nat_of_ascii c in
  (((9 <=? n) && (n <=? 13)) || ((28 <=? n) && (n <=? 32))
   || (n =? 133) || (n =? 160))%nat.

Fixpoint lstrip (s : string) : string :=
  match s with
  | "" => ""
  | String c s' => if is_space c then lstrip s' else s
  end.

Fixpoint rstrip (s : string) : string :=
  match s with
  | "" => ""
  | String c s' =>
      let r := rstrip s' in
      if is_space c && (r =? "") then "" else String c r
  end.

Definition strip (s : string) : string := rstrip (lstrip s).

Fixpoint mem_str (x : string) (l : list string) : bool :=
  match l with
  | [] => false
  | y :: l' => (x =? y) || mem_str x l'
  end.

(** [needle in hay]. *)
Fixpoint contains (needle hay : string) : bool :=
  if String.prefix needle hay then true
  else match hay with
       | "" => false
       | String _ hay' => contains needle hay'
       end.

(** [c in s] for a single character. *)
Fixpoint occurs (c : ascii) (s : string) : bool :=
  match s with
  | "" => false
  | String x s' => Ascii.eqb x c || occurs c s'
  end.

Definition is_digit (c : ascii) : bool :=
  let n := nat_of_ascii c in ((48 <=? n) && (n <=? 57))%nat.

Fixpoint has_digit (s : string) : bool :=
  match s with
  | "" => false
  | String c s' => is_digit c || has_digit s'
  end.

(** [str(n)] for an integer. *)
Definition str_of_Z (z : Z) : string := NilZero.string_of_int (Z.to_int z).

(** ** HTTP *)

Definition Headers : Type := list (string * string).

Definition lower_ascii (c : ascii) : ascii :=
  let n := nat_of_ascii c in
  if ((65 <=? n) && (n <=? 90))%nat then ascii_of_nat (n + 32) else c.

Fixpoint lower (s : string) : string :=
  match s with
  | "" => ""
  | String c s' => String (lower_ascii c) (lower s')
  end.

(** [headers.get(k, default)] on the case-insensitive headers of a response. *)
Fixpoint headers_get (h : Headers) (k default : string) : string :=
  match h with
  | [] => default
  | (k', v) :: h' => if lower k' =? lower k then v else headers_get h' k default
  end.

(** A [requests.Response]: [json_body] is [None] when [.json()] raises. *)
Record Response : Type := {
  status_code : Z;
  text : string;
  headers : Headers;
  json_body : option json
}.

Definition resp_json (r : Response) : exn + json :=
  match json_body r with
  | Some v => inr v
  | None => inl JSONDecodeError
  end.

(** The dict built by [load_config]; every key is always set. *)
Record Config : Type := {
  github_org : string;
  github_user : string;
  gitlab_ns : string;
  release_tag : string;
  release_name : string;
  release_body : string;
  require_mime : bool;
  allowed_mime : list string;
  require_hmac : bool
}.

Definition GITHUB_API : string := "https://api.github.com".

Definition verify_response (resp : Response) (allowed : option (list string))
  : exn + bool :=
  if negb ((200 <=? status_code resp)%Z && (status_code resp <? 300)%Z) then
    inl (RuntimeError ("HTTP " ++ str_of_Z (status_code resp) ++ ": " ++ text resp))
  else
    match allowed with
    | Some ((_ :: _) as l) =>
        let ctype :=
          strip (hd "" (py_split ";" None (headers_get (headers resp) "Content-Type" ""))) in
        if negb (mem_str ctype l) then
          inl (RuntimeError ("Unexpected MIME type: " ++ ctype))
        else inr true
    | _ => inr true
    end.

(** [cfg['allowed_mime'] if cfg['require_mime'] else None] *)
Definition mime_arg (cfg : Config) : option (list string) :=
  if require_mime cfg then Some (allowed_mime cfg) else None.

Definition auth_headers (token : string) : Headers :=
  [("Authorization", "token " ++ token);
   ("Accept", "application/vnd.github.v3+json")].

(** ** Effects *)

(** What a run does to the outside world, in order.  A request is recorded
    with its outcome: the message of the exception [requests] raised, or the
    response. *)
Inductive event : Type :=
| EvPost (url : string) (h : Headers) (payload : json) (r : string + Response)
| EvGet (url : string) (h : Headers) (r : string + Response)
| EvSleep (secs : Z).

Definition is_get (e : event) : bool :=
  match e with EvGet _ _ _ => true | _ => false end.
Definition is_sleep (e : event) : bool :=
  match e with EvSleep _ => true | _ => false end.
Definition is_post (e : event) : bool :=
  match e with EvPost _ _ _ _ => true | _ => false end.

Definition checks (t : list event) : nat := length (filter is_get t).
Definition sleeps (t : list event) : nat := length (filter is_sleep t).
Definition posts (t : list event) : nat := length (filter is_post t).

(** An existence check that answered 200. *)
Definition ready_check (e : event) : Prop :=
  exists url h rr, e = EvGet url h (inr rr) /\ status_code rr = 200%Z.

Definition TIMED_OUT_MESSAGE : string :=
  "Timed out waiting for fork to be available".

Definition TIMED_OUT : exn := RuntimeError TIMED_OUT_MESSAGE.

(** ** The two functions, over an arbitrary outside world *)

(** ** The outside world *)

(** Everything outside the process: GitHub behind [requests], the clock
    behind [time.sleep].  [World] is its state; a request answers [inl msg]
    when the call itself raises.  [str_of_value] is [str(v)] for a value that
    is not a string, as an f-string formats it. *)
Class Outside (World : Type) : Type := {
  requests_get : string -> Headers -> World -> (string + Response) * World;
  requests_post : string -> Headers -> json -> World -> (string + Response) * World;
  time_sleep : Z -> World -> World;
  str_of_value : json -> string
}.

Section Program.

Context {World : Type} {outside : Outside World}.

Definition py_format (v : json) : string :=
  match v with
  | JStr s => s
  | _ => str_of_value v
  end.

(** A computation: runs in a world, raises or returns, leaves a world and
    the events it caused. *)
Definition M (A : Type) : Type := World -> (exn + A) * World * list event.

Definition ret {A} (a : A) : M A := fun w => (inr a, w, []).

Definition raise {A} (e : exn) : M A := fun w => (inl e, w, []).

Definition bind {A B} (m : M A) (f : A -> M B) : M B :=
  fun w =>
    match m w with
    | (inl e, w1, t1) => (inl e, w1, t1)
    | (inr a, w1, t1) =>
        match f a w1 with
        | (r, w2, t2) => (r, w2, (t1 ++ t2)%list)
        end
    end.

Definition lift {A} (r : exn + A) : M A :=
  match r with
  | inl e => raise e
  | inr a => ret a
  end.

Notation "x <- m ;; k" := (bind m (fun x => k))
  (at level 61, m at next level, right associativity).
Notation "m ;;; k" := (bind m (fun _ => k))
  (at level 61, right associativity).

Definition get (url : string) (h : Headers) : M Response :=
  fun w =>
    match requests_get url h w with
    | (inl msg, w1) => (inl (RequestException msg), w1, [EvGet url h (inl msg)])
    | (inr rr, w1) => (inr rr, w1, [EvGet url h (inr rr)])
    end.

Definition post (url : string) (h : Headers) (payload : json) : M Response :=
  fun w =>
    match requests_post url h payload w with
    | (inl msg, w1) =>
        (inl (RequestException msg), w1, [EvPost url h payload (inl msg)])
    | (inr rr, w1) => (inr rr, w1, [EvPost url h payload (inr rr)])
    end.

Definition sleep (secs : Z) : M unit :=
  fun w => (inr tt, time_sleep secs w, [EvSleep secs]).

(** [range(n)] *)
Definition range (n : nat) : list nat := seq 0 n.

(** The polling loop of [fork_github_repo]:
<<
    for i in rng:
        rr = requests.get(url, headers=headers)
        if rr.status_code == 200:
            break
        time.sleep(2)
    else:
        raise RuntimeError("Timed out waiting for fork to be available")
>>
    The source runs it over [range(10)]. *)
Fixpoint poll (rng : list nat) (url : string) (h : Headers) : M unit :=
  match rng with
  | [] => raise TIMED_OUT
  | _ :: rng' =>
      rr <- get url h ;;
      if (status_code rr =? 200)%Z then ret tt
      else sleep 2 ;;; poll rng' url h
  end.

(** [cfg['github_org'] or cfg['github_user'] or os.getenv('GITHUB_ACTOR') or ''],
    followed by [f"{target}/{repo}"]. *)
Definition fallback_full_name
    (cfg : Config) (environ : string -> option string) (repo : string) : string :=
  let target :=
    or_str (github_org cfg)
      (or_str (github_user cfg)
         (or_str (match environ "GITHUB_ACTOR" with Some a => a | None => "" end)
            "")) in
  target ++ "/" ++ repo.

(** [f"{GITHUB_API}/repos/{fork_full_name}"] *)
Definition repo_url (full_name : json) : string :=
  GITHUB_API ++ "/repos/" ++ py_format full_name.

(** [f"{GITHUB_API}/repos/{owner}/{repo}/forks"] *)
Definition forks_url (owner repo : string) : string :=
  GITHUB_API ++ "/repos/" ++ owner ++ "/" ++ repo ++ "/forks".

(** The payload of the creation request: empty, or the target
    organization. *)
Definition fork_payload (cfg : Config) : json :=
  JDict (if negb (github_org cfg =? "") then [("organization", JStr (github_org cfg))]
         else []).

Definition fork_github_repo
    (source token : string) (cfg : Config) (environ : string -> option string)
  : M json :=
  owner_repo <- lift (unpack2 (py_split "/" (Some 1%nat) source)) ;;
  let '(owner, repo) := owner_repo in
  let h := auth_headers token in
  let url := forks_url owner repo in
  let payload := fork_payload cfg in
  r <- post url h payload ;;
  _ <- lift (verify_response r (mime_arg cfg)) ;;
  fork_info <- lift (resp_json r) ;;
  full_name <- lift (py_get fork_info "full_name") ;;
  let fork_full_name :=
    if negb (truthy full_name) then JStr (fallback_full_name cfg environ repo)
    else full_name in
  poll (range 10) (repo_url fork_full_name) h ;;;
  ret fork_full_name.

Definition ensure_github_release
    (fork_full_name : json) (token : string) (cfg : Config) : M json :=
  let h := auth_headers token in
  let releases_url := repo_url fork_full_name ++ "/releases" in
  r <- get releases_url h ;;
  _ <- lift (verify_response r (mime_arg cfg)) ;;
  releases <- lift (resp_json r) ;;
  if truthy releases then
    first <- lift (py_item0 releases) ;;
    lift (py_get first "html_url")
  else
    let payload :=
      JDict [("tag_name", JStr (release_tag cfg));
             ("name", JStr (release_name cfg));
             ("body", JStr (release_body cfg));
             ("draft", JBool false);
             ("prerelease", JBool false)] in
    r2 <- post releases_url h payload ;;
    _ <- lift (verify_response r2 (mime_arg cfg)) ;;
    v <- lift (resp_json r2) ;;
    lift (py_get v "html_url").

(** *** Projections of a run *)

Definition result_of {A} (x : (exn + A) * World * list event) : exn + A :=
  fst (fst x).
Definition world_of {A} (x : (exn + A) * World * list event) : World :=
  snd (fst x).
Definition trace_of {A} (x : (exn + A) * World * list event) : list event :=
  snd x.

(** *** The successive existence checks of a poll

    As long as no check answers 200, the loop checks, sleeps 2 and checks
    again: [attempt_world url h k w] is the world in which check number
    [k + 1] is made when the poll starts in [w] and the first [k] checks
    missed, [attempt url h k w] is the outcome of that check. *)

Definition after_miss (url : string) (h : Headers) (w : World) : World :=
  time_sleep 2 (snd (requests_get url h w)).

Fixpoint attempt_world (url : string) (h : Headers) (k : nat) (w : World) : World :=
  match k with
  | O => w
  | S k' => attempt_world url h k' (after_miss url h w)
  end.

Definition attempt (url : string) (h : Headers) (k : nat) (w : World)
  : string + Response :=
  fst (requests_get url h (attempt_world url h k w)).

(** Check [k + 1] gets a response whose status is not 200. *)
Definition misses (url : string) (h : Headers) (k : nat) (w : World) : Prop :=
  exists rr, attempt url h k w = inr rr /\ status_code rr <> 200%Z.

(** Check [k + 1] gets a response with status 200. *)
Definition hits (url : string) (h : Headers) (k : nat) (w : World) : Prop :=
  exists rr, attempt url h k w = inr rr /\ status_code rr = 200%Z.

(** The events of [k] checks in a row that get a response. *)
Fixpoint miss_trace (url : string) (h : Headers) (k : nat) (w : World) : list event :=
  match k with
  | O => []
  | S k' =>
      EvGet url h (fst (requests_get url h w)) :: EvSleep 2
        :: miss_trace url h k' (after_miss url h w)
  end.

(** The creation request of a fork of [owner/repo] is answered, the answer
    passes [verify_response], and it is a JSON object without a
    [full_name]. *)
Definition creation_unnamed
    (owner repo token : string) (cfg : Config) (w : World) : Prop :=
  exists r w1 d,
    requests_post (forks_url owner repo) (auth_headers token) (fork_payload cfg) w
      = (inr r, w1) /\
    verify_response r (mime_arg cfg) = inr true /\
    json_body r = Some (JDict d) /\
    dict_get d "full_name" = None.

(** Some input makes [fork_github_repo] wait with another bound than 10
    checks or another delay than 2: a run gives up after another number of
    checks, or sleeps another time. *)
Definition poll_configurable : Prop :=
  exists source token cfg environ w,
    (result_of (fork_github_repo source token cfg environ w) = inl TIMED_OUT /\
     checks (trace_of (fork_github_repo source token cfg environ w)) <> 10) \/
    (exists secs,
        In (EvSleep secs) (trace_of (fork_github_repo source token cfg environ w)) /\
        secs <> 2%Z).

(** The URLs of the existence checks of a trace. *)
Fixpoint checked_urls (t : list event) : list string :=
  match t with
  | [] => []
  | EvGet url _ _ :: t' => url :: checked_urls t'
  | _ :: t' => checked_urls t'
  end.

End Program.

(** ** The poll outcomes of the specification *)

Inductive PollOutcome : Type := ready | not_ready | permanent_error.

(** The specification's reading of the status of an existence check: found
    is ready, not found is not ready, any other status is a permanent
    error. *)
Definition spec_outcome (rr : Response) : PollOutcome :=
  if (status_code rr =? 200)%Z then ready
  else if (status_code rr =? 404)%Z then not_ready
  else permanent_error.

(** ** A scripted outside world

    The answers to the successive POST and GET requests are listed in
    advance; once a script is used up, GitHub answers 404.  The clock adds up
    the time slept. *)

Module Fake.

Record world : Type := {
  post_script : list (string + Response);
  get_script : list (string + Response);
  slept : Z
}.

Definition response (status : Z) (body : option json) : Response :=
  {| status_code := status; text := ""; headers := []; json_body := body |}.

Definition not_found : Response := response 404 None.

Definition fake_get (url : string) (h : Headers) (w : world)
  : (string + Response) * world :=
  match get_script w with
  | [] => (inr not_found, w)
  | r :: rest =>
      (r, {| post_script := post_script w; get_script := rest; slept := slept w |})
  end.

Definition fake_post (url : string) (h : Headers) (payload : json) (w : world)
  : (string + Response) * world :=
  match post_script w with
  | [] => (inr not_found, w)
  | r :: rest =>
      (r, {| post_script := rest; get_script := get_script w; slept := slept w |})
  end.

Definition fake_sleep (secs : Z) (w : world) : world :=
  {| post_script := post_script w; get_script := get_script w;
     slept := (slept w + secs)%Z |}.

Definition fake_str (v : json) : string :=
  match v with
  | JNull => "None"
  | JBool true => "True"
  | JBool false => "False"
  | JInt n => str_of_Z n
  | _ => ""
  end.

#[global] Instance fake_outside : Outside world := {
  requests_get := fake_get;
  requests_post := fake_post;
  time_sleep := fake_sleep;
  str_of_value := fake_str
}.

Definition cfg : Config :=
  {| github_org := ""; github_user := "alice"; gitlab_ns := "";
     release_tag := "v0.0.1"; release_name := "Initial release";
     release_body := "Auto-created release";
     require_mime := false; allowed_mime := []; require_hmac := false |}.

Definition no_environ (name : string) : option string := None.

(** The creation call answers 202 with the fork's description. *)
Definition created (full_name : string) : string + Response :=
  inr (response 202 (Some (JDict [("full_name", JStr full_name)]))).

(** The creation call answers 202 without a [full_name]. *)
Definition created_unnamed : string + Response :=
  inr (response 202 (Some (JDict [("id", JInt 7)]))).

Definition status (code : Z) : string + Response := inr (response code None).

Definition start (p g : list (string + Response)) : world :=
  {| post_script := p; get_script := g; slept := 0 |}.

(** The scenarios used below. *)

Definition hello_url : string := "https://api.github.com/repos/alice/hello".

(** not found, not found, found *)
Definition becomes_ready : world := start [] [status 404; status 404; status 200].

(** the fork is created and never becomes visible *)
Definition never_ready : world := start [created "alice/hello"] [].

(** the fork is created and every check is refused: bad credentials *)
Definition unauthorized : world :=
  start [created "alice/hello"] (repeat (status 401) 10).

(** refused, forbidden, found *)
Definition refused_twice : world := start [] [status 401; status 403; status 200].

(** not found, then the connection breaks *)
Definition breaks_down : world := start [] [status 404; inl "connection reset"].

(** the creation answer has no [full_name]; the fork is visible at once *)
Definition unnamed : world := start [created_unnamed] [status 200].

(** the creation answer has no [full_name]; the fork never becomes visible *)
Definition unnamed_never_ready : world := start [created_unnamed] [].

Definition first_release : list (string * json) :=
  [("id", JInt 1); ("html_url", JStr "https://github.com/alice/hello/releases/tag/v1")].

(** the fork has two releases *)
Definition released : world :=
  start [] [inr (response 200 (Some (JList [JDict first_release; JDict []])))].

End Fake.

(** * The rest of the tool *)

(** ** [load_config] *)

(** [root.findtext(path) or default]; [findtext] is the parsed XML tree seen
    through its [findtext] method: [None] when no element matches. *)
Definition findtext_or
    (findtext : string -> option string) (path default : string) : string :=
  match findtext path with
  | Some s => or_str s default
  | None => default
  end.

(** [root.findtext(path) == 'true'] *)
Definition findtext_is_true (findtext : string -> option string) (path : string) : bool :=
  match findtext path with
  | Some s => s =? "true"
  | None => false
  end.

(** [[m.strip() for m in allowed.split(',') if m.strip()]] *)
Definition mime_list (allowed : string) : list string :=
  map strip
    (filter (fun m => negb (strip m =? "")) (py_split "," None allowed)).

(** [load_config], from the root that [ET.parse(path).getroot()] gives. *)
Definition load_config (findtext : string -> option string) : Config :=
  {| github_org := findtext_or findtext "GitHub/TargetOrg" "";
     github_user := findtext_or findtext "GitHub/TargetUser" "";
     gitlab_ns := findtext_or findtext "GitLab/TargetNamespace" "";
     release_tag := findtext_or findtext "ReleaseDefaults/Tag" "v0.0.1";
     release_name := findtext_or findtext "ReleaseDefaults/Name" "Initial release";
     release_body := findtext_or findtext "ReleaseDefaults/Body" "Auto-created release";
     require_mime := findtext_is_true findtext "Verification/RequireMimeType";
     allowed_mime :=
       mime_list (findtext_or findtext "Verification/AllowedMimeTypes" "");
     require_hmac := findtext_is_true findtext "Verification/RequireHmacSignature" |}.

(** The Content-Type that [verify_response] compares with the allowed
    list: [resp.headers.get('Content-Type','').split(';')[0].strip()]. *)
Definition content_type (resp : Response) : string :=
  strip (hd "" (py_split ";" None (headers_get (headers resp) "Content-Type" ""))).

(** ** [requests.utils.quote(s, safe='')] *)

Definition hex_digit (n : nat) : ascii :=
  match n with
  | 0 => "0" | 1 => "1" | 2 => "2" | 3 => "3" | 4 => "4" | 5 => "5" | 6 => "6"
  | 7 => "7" | 8 => "8" | 9 => "9" | 10 => "A" | 11 => "B" | 12 => "C"
  | 13 => "D" | 14 => "E" | _ => "F"
  end%char.

(** ["%XX"] *)
Definition percent (byte : nat) : string :=
  String "%" (String (hex_digit (byte / 16)) (String (hex_digit (byte mod 16)) "")).

(** The characters [quote] never escapes: letters, digits and [_.-~]. *)
Definition unreserved (c : ascii) : bool :=
  let n := nat_of_ascii c in
  (((65 <=? n) && (n <=? 90)) || ((97 <=? n) && (n <=? 122))
   || ((48 <=? n) && (n <=? 57))
   || (n =? 95) || (n =? 46) || (n =? 45) || (n =? 126))%nat.

(** The UTF-8 bytes of a code point below 256. *)
Definition utf8 (n : nat) : list nat :=
  if (n <? 128)%nat then [n] else [192 + n / 64; 128 + n mod 64]%nat.

Fixpoint quote (s : string) : string :=
  match s with
  | "" => ""
  | String c s' =>
      (if unreserved c then String c ""
       else String.concat "" (map percent (utf8 (nat_of_ascii c))))
      ++ quote s'
  end.

Definition GITLAB_API : string := "https://gitlab.com/api/v4".

(** ** What the command-line tool needs besides [Outside] *)

(** A line written by [print]. *)
Inductive line : Type :=
| Stdout (s : string)
| Stderr (s : string).

(** The console behind [print], the form-encoded POST of [requests]
    ([requests.post(url, headers=h, data=fields)]) and the library functions
    [main] calls: [str(e)] for an exception that Python or a library raised
    with a text of its own, [json.dumps] and
    [hmac.new(key.encode(), msg.encode(), hashlib.sha256).hexdigest()]. *)
Class Runtime (World : Type) : Type := {
  print : line -> World -> World;
  requests_post_form :
    string -> Headers -> list (string * string) -> World -> (string + Response) * World;
  exn_text : exn -> string;
  json_dumps : json -> string;
  hmac_sha256_hexdigest : string -> string -> string
}.

Section Tool.

Context {World : Type} {outside : Outside World} {runtime : Runtime World}.

Notation "x <- m ;; k" := (bind m (fun x => k))
  (at level 61, m at next level, right associativity).
Notation "m ;;; k" := (bind m (fun _ => k))
  (at level 61, right associativity).

Definition post_form (url : string) (h : Headers) (fields : list (string * string))
  : M Response :=
  fun w =>
    let payload := JDict (map (fun kv => (fst kv, JStr (snd kv))) fields) in
    match requests_post_form url h fields w with
    | (inl msg, w1) =>
        (inl (RequestException msg), w1, [EvPost url h payload (inl msg)])
    | (inr rr, w1) => (inr rr, w1, [EvPost url h payload (inr rr)])
    end.

Definition print_line (l : line) : M unit :=
  fun w => (inr tt, print l w, []).

(** [payload.get(k, default)] on a dict of strings *)
Fixpoint fields_get (fields : list (string * string)) (k default : string) : string :=
  match fields with
  | [] => default
  | (k', v) :: fields' => if k' =? k then v else fields_get fields' k default
  end.

(** The form of [import_to_gitlab]. *)
Definition gitlab_fields (cfg : Config) (owner repo : string) : list (string * string) :=
  List.app
    [("path", repo);
     ("name", repo);
     ("import_url", "https://github.com/" ++ owner ++ "/" ++ repo ++ ".git");
     ("visibility", if negb (gitlab_ns cfg =? "") then "public" else "public")]
    (if negb (gitlab_ns cfg =? "") then [("namespace", gitlab_ns cfg)] else []).

(** The URL under which [import_to_gitlab] looks an existing project up. *)
Definition gitlab_project_url (fields : list (string * string)) (repo : string) : string :=
  GITLAB_API ++ "/projects/" ++ quote (fields_get fields "namespace" "" ++ "/" ++ repo).

Definition import_to_gitlab (source token : string) (cfg : Config) : M json :=
  owner_repo <- lift (unpack2 (py_split "/" (Some 1%nat) source)) ;;
  let '(owner, repo) := owner_repo in
  let h := [("PRIVATE-TOKEN", token)] in
  let payload := gitlab_fields cfg owner repo in
  r <- post_form (GITLAB_API ++ "/projects") h payload ;;
  if (status_code r =? 201)%Z then
    v <- lift (resp_json r) ;;
    lift (py_get v "web_url")
  else if (status_code r =? 409)%Z then
    proj <- get (gitlab_project_url payload repo) h ;;
    if (status_code proj =? 200)%Z then
      v <- lift (resp_json proj) ;;
      lift (py_get v "web_url")
    else ret JNull
  else
    print_line (Stderr ("GitLab import response: " ++ str_of_Z (status_code r)
                          ++ " " ++ text r)) ;;;
    ret JNull.

Definition compute_hmac (secret message : string) : string :=
  hmac_sha256_hexdigest secret message.

(** [str(e)] *)
Definition str_of_exn (e : exn) : string :=
  match e with
  | RuntimeError msg | ValueError msg | RequestException msg => msg
  | _ => exn_text e
  end.

(** [if v:] for the result of [os.getenv] *)
Definition env_set (v : option string) : bool :=
  match v with
  | Some s => negb (s =? "")
  | None => false
  end.

Definition env_value (v : option string) : string :=
  match v with
  | Some s => s
  | None => ""
  end.

(** [main], once the arguments are parsed ([source] is [args.source]) and the
    configuration file is read ([findtext] is its root): the exit status of
    the process, the world it leaves and the requests it made. *)
Definition main
    (source : string) (findtext : string -> option string)
    (environ : string -> option string) (w : World) : Z * World * list event :=
  let github_token := environ "GITHUB_TOKEN" in
  let gitlab_token := environ "GITLAB_TOKEN" in
  let hmac_secret := environ "HMAC_SECRET" in
  if negb (env_set github_token) then
    (3%Z, print (Stderr "GITHUB_TOKEN not set") w, [])
  else
    let cfg := load_config findtext in
    let w := print (Stdout ("Forking on GitHub: " ++ source)) w in
    match fork_github_repo source (env_value github_token) cfg environ w with
    | (inl e, w, t1) =>
        (4%Z, print (Stderr ("GitHub operation failed: " ++ str_of_exn e)) w, t1)
    | (inr fork_full, w, t1) =>
        let w := print (Stdout ("Fork created: " ++ py_format fork_full)) w in
        match ensure_github_release fork_full (env_value github_token) cfg w with
        | (inl e, w, t2) =>
            (4%Z, print (Stderr ("GitHub operation failed: " ++ str_of_exn e)) w,
             (t1 ++ t2)%list)
        | (inr release_url, w, t2) =>
            let w := print (Stdout ("Release ensured: " ++ py_format release_url)) w in
            let '(w, t3) :=
              if env_set gitlab_token then
                let w := print (Stdout ("Importing to GitLab: " ++ source)) w in
                match import_to_gitlab source (env_value gitlab_token) cfg w with
                | (inl e, w, t3) =>
                    (print (Stderr ("GitLab import failed: " ++ str_of_exn e)) w, t3)
                | (inr gl_url, w, t3) =>
                    (print (Stdout ("GitLab import result: " ++ py_format gl_url)) w, t3)
                end
              else (w, []) in
            let summary :=
              json_dumps (JDict [("source", JStr source); ("fork", fork_full);
                                 ("release", release_url)]) in
            let w :=
              if env_set hmac_secret then
                print (Stdout ("HMAC-SIGNATURE: "
                                 ++ compute_hmac (env_value hmac_secret) summary)) w
              else w in
            (0%Z, print (Stdout ("Done for " ++ source)) w, (t1 ++ t2 ++ t3)%list)
        end
    end.

(** *** Observations on traces *)

(** The URL of a request. *)
Definition event_url (e : event) : option string :=
  match e with
  | EvPost url _ _ _ | EvGet url _ _ => Some url
  | EvSleep _ => None
  end.

(** The headers of a request. *)
Definition event_headers (e : event) : option Headers :=
  match e with
  | EvPost _ h _ _ | EvGet _ h _ => Some h
  | EvSleep _ => None
  end.


(** The seconds slept in a trace. *)
Fixpoint slept_seconds (t : list event) : Z :=
  match t with
  | [] => 0
  | EvSleep secs :: t' => secs + slept_seconds t'
  | _ :: t' => slept_seconds t'
  end%Z.

End Tool.

(** A scripted world with a console: the form posts are answered from the
    same script as the other posts, the lines printed are kept. *)

Module Terminal.

Record world : Type := {
  net : Fake.world;
  printed : list line
}.

Definition on_net {A} (f : Fake.world -> A * Fake.world) (w : world) : A * world :=
  match f (net w) with
  | (a, n) => (a, {| net := n; printed := printed w |})
  end.

#[global] Instance terminal_outside : Outside world := {
  requests_get url h := on_net (Fake.fake_get url h);
  requests_post url h payload := on_net (Fake.fake_post url h payload);
  time_sleep secs w := {| net := Fake.fake_sleep secs (net w); printed := printed w |};
  str_of_value := Fake.fake_str
}.

#[global] Instance terminal_runtime : Runtime world := {
  print l w := {| net := net w; printed := (printed w ++ [l])%list |};
  requests_post_form url h fields := on_net (Fake.fake_post url h (JDict []));
  exn_text e := "error";
  json_dumps v := "{}";
  hmac_sha256_hexdigest key msg := "00"
}.

Definition start (p g : list (string + Response)) : world :=
  {| net := Fake.start p g; printed := [] |}.

(** The configuration file sets nothing. *)
Definition empty_root (path : string) : option string := None.

(** The configuration file asks for JSON answers. *)
Definition strict_root (path : string) : option string :=
  if path =? "Verification/RequireMimeType" then Some "true"
  else if path =? "Verification/AllowedMimeTypes"
       then Some " application/json , ,text/plain"
  else if path =? "GitHub/TargetUser" then Some "alice"
  else None.

Definition environ (github gitlab : string) (name : string) : option string :=
  if name =? "GITHUB_TOKEN" then Some github
  else if name =? "GITLAB_TOKEN" then Some gitlab
  else None.

Definition release_listed : string + Response :=
  inr (Fake.response 200 (Some (JList [JDict Fake.first_release]))).

(** A JSON answer with a charset. *)
Definition json_answer : Response :=
  {| status_code := 200; text := "{}";
     headers := [("content-type", "application/json; charset=utf-8")];
     json_body := Some (JDict []) |}.

(** The same answer without the charset. *)
Definition plain_json_answer : Response :=
  {| status_code := 200; text := "{}";
     headers := [("Content-Type", "application/json")];
     json_body := Some (JDict []) |}.

Definition project_found : string + Response :=
  inr (Fake.response 200
         (Some (JDict [("web_url", JStr "https://gitlab.com/alice/hello")]))).

(** The fork is visible at the second check and has a release; GitLab knows
    the project already. *)
Definition all_goes_well : world :=
  start [Fake.created "alice/hello"; Fake.status 409]
        [Fake.status 404; Fake.status 200; release_listed; project_found].

(** GitLab answers 409 to the import and 200 to the lookup. *)
Definition conflict : world := start [Fake.status 409] [project_found].

(** GitLab answers 201 with a body that is not JSON. *)
Definition garbled : world := start [Fake.status 201] [].

(** The fork is named by GitHub and visible at once. *)
Definition named_bob : world := start [Fake.created "bob/hello"] [Fake.status 200].

(** The creation answer has a null [full_name]; the fork is visible at once. *)
Definition null_name : world :=
  start [inr (Fake.response 202 (Some (JDict [("full_name", JNull)])))]
        [Fake.status 200].

(** The fork has no release yet. *)
Definition no_release : world :=
  start [inr (Fake.response 201
                (Some (JDict [("html_url", JStr "https://github.com/alice/hello/releases/tag/v0.0.1")])))]
        [inr (Fake.response 200 (Some (JList [])))].

(** A configuration file that differs from [strict_root] in
    [RequireHmacSignature] only. *)
Definition strict_root_hmac (path : string) : option string :=
  if path =? "Verification/RequireHmacSignature" then Some "true"
  else strict_root path.


End Terminal.

(** * Properties *)

Section Properties.

Context {World : Type} {outside : Outside World}.

Implicit Types (url : string) (h : Headers) (w : World) (t : list event).
Implicit Types (rng : list nat) (k : nat).

Local Open Scope list_scope.

(** ** Counting events *)

Lemma checks_app t1 t2 : checks (t1 ++ t2) = checks t1 + checks t2.
Proof. unfold checks. now rewrite filter_app, length_app. Qed.

Lemma sleeps_app t1 t2 : sleeps (t1 ++ t2) = sleeps t1 + sleeps t2.
Proof. unfold sleeps. now rewrite filter_app, length_app. Qed.

Lemma posts_app t1 t2 : posts (t1 ++ t2) = posts t1 + posts t2.
Proof. unfold posts. now rewrite filter_app, length_app. Qed.

Lemma checked_urls_app t1 t2 :
  checked_urls (t1 ++ t2) = checked_urls t1 ++ checked_urls t2.
Proof.
  induction t1 as [|e t1 IH]; simpl; [reflexivity|].
  destruct e; simpl; now rewrite IH.
Qed.

Lemma checks_miss_trace url h k w : checks (miss_trace url h k w) = k.
Proof.
  revert w; induction k as [|k IH]; intros w; simpl; [reflexivity|].
  unfold checks in *; simpl. now rewrite IH.
Qed.

Lemma sleeps_miss_trace url h k w : sleeps (miss_trace url h k w) = k.
Proof.
  revert w; induction k as [|k IH]; intros w; simpl; [reflexivity|].
  unfold sleeps in *; simpl. now rewrite IH.
Qed.

(** ** One turn of the loop *)

Lemma poll_step i rng url h w :
  poll (i :: rng) url h w =
  match requests_get url h w with
  | (inl msg, w1) => (inl (RequestException msg), w1, [EvGet url h (inl msg)])
  | (inr rr, w1) =>
      if (status_code rr =? 200)%Z then (inr tt, w1, [EvGet url h (inr rr)])
      else
        match poll rng url h (time_sleep 2 w1) with
        | (r, w2, t) => (r, w2, EvGet url h (inr rr) :: EvSleep 2 :: t)
        end
  end.
Proof.
  simpl. unfold bind, get, sleep, ret.
  destruct (requests_get url h w) as [[msg|rr] w1]; [reflexivity|].
  destruct (status_code rr =? 200)%Z; [reflexivity|].
  destruct (poll rng url h (time_sleep 2 w1)) as [[r w2] t]. reflexivity.
Qed.

Lemma misses_succ url h k w :
  misses url h (S k) w <-> misses url h k (after_miss url h w).
Proof. reflexivity. Qed.

(** A poll whose first [k] checks miss starts with their events and goes on
    as a poll over the remaining turns. *)
Lemma poll_misses k : forall rng url h w,
  k <= length rng ->
  (forall j, j < k -> misses url h j w) ->
  poll rng url h w =
  match poll (skipn k rng) url h (attempt_world url h k w) with
  | (r, w', t) => (r, w', miss_trace url h k w ++ t)
  end.
Proof.
  induction k as [|k IH]; intros rng url h w Hlen Hmiss.
  - simpl. now destruct (poll rng url h w) as [[r w'] t].
  - destruct rng as [|i rng]; [simpl in Hlen; lia|].
    simpl in Hlen. rewrite poll_step.
    destruct (Hmiss 0 ltac:(lia)) as (rr & Hrr & Hst).
    assert (Hnext : forall j, j < k -> misses url h j (after_miss url h w)).
    { intros j Hj. apply (proj1 (misses_succ url h j w)), Hmiss. lia. }
    unfold attempt in Hrr. simpl in Hrr |- *.
    unfold after_miss in *.
    destruct (requests_get url h w) as [o w1]. simpl in Hrr, Hnext |- *. subst o.
    apply Z.eqb_neq in Hst. rewrite Hst.
    rewrite (IH rng url h (time_sleep 2 w1)); [|lia|exact Hnext].
    now destruct (poll (skipn k rng) url h _) as [[r w'] t].
Qed.

(** ** The three ways a poll ends *)

Lemma attempt_at url h k w : attempt url h k w = attempt url h 0 (attempt_world url h k w).
Proof. reflexivity. Qed.

Lemma skipn_nonempty {A} k (l : list A) : k < length l -> exists x l', skipn k l = x :: l'.
Proof.
  intros Hk. destruct (skipn k l) as [|x l'] eqn:E; [|eauto].
  pose proof (length_skipn k l) as Hl. rewrite E in Hl. simpl in Hl. lia.
Qed.

(** The first [k] checks miss and the next one answers 200. *)
Lemma poll_first_hit k rng url h w :
  k < length rng ->
  (forall j, j < k -> misses url h j w) ->
  hits url h k w ->
  poll rng url h w =
  (inr tt, snd (requests_get url h (attempt_world url h k w)),
   miss_trace url h k w ++ [EvGet url h (attempt url h k w)]).
Proof.
  intros Hk Hmiss (rr & Hrr & Hst).
  rewrite (poll_misses k) by (assumption || lia).
  destruct (skipn_nonempty k rng Hk) as (i & rng' & ->).
  rewrite poll_step. rewrite Hrr. unfold attempt in Hrr.
  destruct (requests_get url h (attempt_world url h k w)) as [o w1].
  simpl in Hrr |- *. subst o. apply Z.eqb_eq in Hst. now rewrite Hst.
Qed.

(** The first [k] checks miss and the next request raises. *)
Lemma poll_first_raise k rng url h w msg :
  k < length rng ->
  (forall j, j < k -> misses url h j w) ->
  attempt url h k w = inl msg ->
  poll rng url h w =
  (inl (RequestException msg), snd (requests_get url h (attempt_world url h k w)),
   miss_trace url h k w ++ [EvGet url h (inl msg)]).
Proof.
  intros Hk Hmiss Hrr.
  rewrite (poll_misses k) by (assumption || lia).
  destruct (skipn_nonempty k rng Hk) as (i & rng' & ->).
  rewrite poll_step. unfold attempt in Hrr.
  destruct (requests_get url h (attempt_world url h k w)) as [o w1].
  simpl in Hrr |- *. now subst o.
Qed.

(** Every check misses. *)
Lemma poll_all_miss rng url h w :
  (forall j, j < length rng -> misses url h j w) ->
  poll rng url h w =
  (inl TIMED_OUT, attempt_world url h (length rng) w,
   miss_trace url h (length rng) w).
Proof.
  intros Hmiss.
  rewrite (poll_misses (length rng)) by (assumption || lia).
  rewrite skipn_all. simpl. now rewrite app_nil_r.
Qed.

Lemma length_range n : length (range n) = n.
Proof. apply length_seq. Qed.

Lemma skipn_range n : skipn n (range n) = [].
Proof.
  pose proof (skipn_all (range n)) as H. now rewrite length_range in H.
Qed.

Lemma poll_checks_le rng url h w : checks (trace_of (poll rng url h w)) <= length rng.
Proof.
  revert w; induction rng as [|i rng IH]; intros w.
  - simpl. unfold checks. simpl. lia.
  - rewrite poll_step.
    destruct (requests_get url h w) as [[msg|rr] w1]; [unfold checks; simpl; lia|].
    destruct (status_code rr =? 200)%Z; [unfold checks; simpl; lia|].
    specialize (IH (time_sleep 2 w1)).
    destruct (poll rng url h (time_sleep 2 w1)) as [[r w2] t].
    unfold trace_of, checks in *. simpl in *. lia.
Qed.

Lemma poll_sleeps_two rng url h w secs :
  In (EvSleep secs) (trace_of (poll rng url h w)) -> secs = 2%Z.
Proof.
  revert w; induction rng as [|i rng IH]; intros w.
  - simpl. tauto.
  - rewrite poll_step.
    destruct (requests_get url h w) as [[msg|rr] w1];
      [simpl; intros [H|[]]; discriminate|].
    destruct (status_code rr =? 200)%Z; [simpl; intros [H|[]]; discriminate|].
    specialize (IH (time_sleep 2 w1)).
    destruct (poll rng url h (time_sleep 2 w1)) as [[r w2] t].
    unfold trace_of in *. simpl in *.
    intros [H|[H|H]]; [discriminate|congruence|auto].
Qed.

Lemma poll_success_ready rng url h w :
  result_of (poll rng url h w) = inr tt ->
  Exists ready_check (trace_of (poll rng url h w)).
Proof.
  revert w; induction rng as [|i rng IH]; intros w.
  - simpl. discriminate.
  - rewrite poll_step.
    destruct (requests_get url h w) as [[msg|rr] w1]; [simpl; discriminate|].
    destruct (status_code rr =? 200)%Z eqn:E.
    + intros _. constructor. exists url, h, rr. split; [reflexivity|].
      now apply Z.eqb_eq.
    + specialize (IH (time_sleep 2 w1)).
      destruct (poll rng url h (time_sleep 2 w1)) as [[r w2] t].
      unfold result_of, trace_of in *. simpl in *.
      intros Hr. do 2 constructor 2. auto.
Qed.

Lemma poll_timeout_exhausted rng url h w :
  result_of (poll rng url h w) = inl TIMED_OUT ->
  checks (trace_of (poll rng url h w)) = length rng /\
  sleeps (trace_of (poll rng url h w)) = length rng.
Proof.
  revert w; induction rng as [|i rng IH]; intros w.
  - simpl. intros _. split; reflexivity.
  - rewrite poll_step.
    destruct (requests_get url h w) as [[msg|rr] w1]; [simpl; discriminate|].
    destruct (status_code rr =? 200)%Z eqn:E; [simpl; discriminate|].
    specialize (IH (time_sleep 2 w1)).
    destruct (poll rng url h (time_sleep 2 w1)) as [[r w2] t].
    unfold result_of, trace_of, checks, sleeps in *. simpl in *.
    intros Hr. destruct (IH Hr) as [-> ->]. split; reflexivity.
Qed.

Lemma poll_checked_urls rng url h w :
  Forall (eq url) (checked_urls (trace_of (poll rng url h w))).
Proof.
  revert w; induction rng as [|i rng IH]; intros w.
  - simpl. constructor.
  - rewrite poll_step.
    destruct (requests_get url h w) as [[msg|rr] w1];
      [simpl; repeat constructor|].
    destruct (status_code rr =? 200)%Z; [simpl; repeat constructor|].
    specialize (IH (time_sleep 2 w1)).
    destruct (poll rng url h (time_sleep 2 w1)) as [[r w2] t].
    unfold trace_of in *. simpl in *. constructor; auto.
Qed.

(** ** The shape of a run of [fork_github_repo] *)

Lemma verify_response_not_timed_out r allowed e :
  verify_response r allowed = inl e -> e <> TIMED_OUT.
Proof.
  unfold verify_response, TIMED_OUT.
  destruct (negb _); [intros [= <-]; discriminate|].
  destruct allowed as [[|a l]|]; try discriminate.
  destruct (negb _); [intros [= <-]; discriminate|discriminate].
Qed.

Lemma unpack2_not_timed_out l e : unpack2 l = inl e -> e <> TIMED_OUT.
Proof.
  unfold unpack2, TIMED_OUT.
  destruct l as [|a [|b [|c l]]]; intros [= <-]; discriminate.
Qed.

(** [fork_github_repo] with its sequencing spelled out. *)
Lemma fork_github_repo_eq source token cfg environ w :
  fork_github_repo source token cfg environ w =
  match unpack2 (py_split "/" (Some 1) source) with
  | inl e => (inl e, w, [])
  | inr (owner, repo) =>
      let h := auth_headers token in
      let url := forks_url owner repo in
      let payload := fork_payload cfg in
      match requests_post url h payload w with
      | (inl msg, w1) => (inl (RequestException msg), w1, [EvPost url h payload (inl msg)])
      | (inr r, w1) =>
          let ev := EvPost url h payload (inr r) in
          match verify_response r (mime_arg cfg) with
          | inl e => (inl e, w1, [ev])
          | inr _ =>
              match resp_json r with
              | inl e => (inl e, w1, [ev])
              | inr fork_info =>
                  match py_get fork_info "full_name" with
                  | inl e => (inl e, w1, [ev])
                  | inr full_name =>
                      let name :=
                        if negb (truthy full_name)
                        then JStr (fallback_full_name cfg environ repo)
                        else full_name in
                      match poll (range 10) (repo_url name) h w1 with
                      | (inl e, w2, t) => (inl e, w2, ev :: t)
                      | (inr _, w2, t) => (inr name, w2, ev :: t)
                      end
                  end
              end
          end
      end
  end.
Proof.
  unfold fork_github_repo, bind, lift, post, ret, raise.
  destruct (unpack2 _) as [e|[owner repo]]; [reflexivity|].
  cbv zeta.
  destruct (requests_post _ _ _ w) as [[msg|r] w1]; [reflexivity|].
  destruct (verify_response r (mime_arg cfg)) as [e|b]; [reflexivity|].
  destruct (resp_json r) as [e|fork_info]; [reflexivity|].
  destruct (py_get fork_info "full_name") as [e|full_name]; [reflexivity|].
  destruct (poll (range 10) _ _ w1) as [[[e|[]] w2] t]; simpl;
    now rewrite ?app_nil_r.
Qed.

(** Either the run stops before the poll, with an error that is not the
    timeout and without any check or sleep, or it is the creation request
    followed by the poll over [range(10)]. *)
Lemma fork_github_repo_run source token cfg environ w :
  (exists e, result_of (fork_github_repo source token cfg environ w) = inl e /\
             e <> TIMED_OUT /\
             (forall ev, In ev (trace_of (fork_github_repo source token cfg environ w)) ->
                         is_post ev = true))
  \/
  (exists name ev w1,
      is_post ev = true /\
      trace_of (fork_github_repo source token cfg environ w) =
        ev :: trace_of (poll (range 10) (repo_url name) (auth_headers token) w1) /\
      result_of (fork_github_repo source token cfg environ w) =
        match result_of (poll (range 10) (repo_url name) (auth_headers token) w1) with
        | inl e => inl e
        | inr _ => inr name
        end).
Proof.
  rewrite fork_github_repo_eq.
  destruct (unpack2 _) as [e|[owner repo]] eqn:Eu.
  { left. exists e. split; [reflexivity|]. split; [|simpl; tauto].
    eapply unpack2_not_timed_out; eauto. }
  cbv zeta.
  destruct (requests_post _ _ _ w) as [[msg|r] w1].
  { left. exists (RequestException msg). split; [reflexivity|].
    split; [discriminate|]. intros ev [<-|[]]. reflexivity. }
  destruct (verify_response r (mime_arg cfg)) as [e|b] eqn:Ev.
  { left. exists e. split; [reflexivity|].
    split; [eapply verify_response_not_timed_out; eauto|].
    intros ev [<-|[]]. reflexivity. }
  destruct (resp_json r) as [e|fork_info] eqn:Ej.
  { left. exists e. split; [reflexivity|].
    split; [|intros ev [<-|[]]; reflexivity].
    unfold resp_json in Ej. destruct (json_body r); inversion Ej. discriminate. }
  destruct (py_get fork_info "full_name") as [e|full_name] eqn:Eg.
  { left. exists e. split; [reflexivity|].
    split; [|intros ev [<-|[]]; reflexivity].
    destruct fork_info; inversion Eg; discriminate. }
  right.
  match goal with |- context [poll _ (repo_url ?n) _ _] => exists n end.
  eexists; exists w1.
  destruct (poll (range 10) _ _ w1) as [[[e|[]] w2] t];
    (refine (conj _ (conj eq_refl eq_refl)); reflexivity).
Qed.

(** A poll with a turn left starts with an existence check. *)
Lemma poll_starts_with_check i rng url h w :
  exists t, trace_of (poll (i :: rng) url h w) = EvGet url h (attempt url h 0 w) :: t.
Proof.
  rewrite poll_step. unfold attempt. simpl.
  destruct (requests_get url h w) as [[msg|rr] w1]; [eexists; reflexivity|].
  destruct (status_code rr =? 200)%Z; [eexists; reflexivity|].
  destruct (poll rng url h (time_sleep 2 w1)) as [[r w2] t]. eexists; reflexivity.
Qed.

Lemma ready_check_attempt url h k w : hits url h k w -> ready_check (EvGet url h (attempt url h k w)).
Proof. intros (rr & -> & Hst). now exists url, h, rr. Qed.

(** ** The waiter *)

(** C3. For every bound [max_attempts >= 1]: when the check answers 200 for
    the first time on attempt [k <= max_attempts], the earlier attempts
    having missed, the poll returns normally after exactly [k] checks and
    [k - 1] sleeps, and the ready check is its last event: no sleep follows
    it. *)
Theorem poll_ready_on_attempt (max_attempts k : nat) url h w :
  1 <= k <= max_attempts ->
  (forall j, j < k - 1 -> misses url h j w) ->
  hits url h (k - 1) w ->
  result_of (poll (range max_attempts) url h w) = inr tt /\
  checks (trace_of (poll (range max_attempts) url h w)) = k /\
  sleeps (trace_of (poll (range max_attempts) url h w)) = k - 1 /\
  exists t e, trace_of (poll (range max_attempts) url h w) = t ++ [e] /\ ready_check e.
Proof.
  intros Hk Hmiss Hhit.
  rewrite (poll_first_hit (k - 1)); [|rewrite length_range; lia|assumption..].
  unfold result_of, trace_of; simpl.
  rewrite checks_app, sleeps_app, checks_miss_trace, sleeps_miss_trace.
  repeat split; [unfold checks; simpl; lia|unfold sleeps; simpl; lia|].
  eexists _, _. split; [reflexivity|]. now apply ready_check_attempt.
Qed.

(** C2, as the code has it. For every bound [max_attempts >= 1]: when every
    attempt misses, the poll performs exactly [max_attempts] checks and
    exactly [max_attempts] sleeps, one after each missed check, the last one
    included, and then fails with the timeout error. *)
Theorem poll_never_ready (max_attempts : nat) url h w :
  1 <= max_attempts ->
  (forall j, j < max_attempts -> misses url h j w) ->
  result_of (poll (range max_attempts) url h w) = inl TIMED_OUT /\
  checks (trace_of (poll (range max_attempts) url h w)) = max_attempts /\
  sleeps (trace_of (poll (range max_attempts) url h w)) = max_attempts /\
  exists t, trace_of (poll (range max_attempts) url h w) = t ++ [EvSleep 2].
Proof.
  intros Hn Hmiss.
  rewrite poll_all_miss; rewrite length_range; [|assumption].
  unfold result_of, trace_of; simpl.
  rewrite checks_miss_trace, sleeps_miss_trace. repeat split.
  clear Hmiss. revert w.
  destruct max_attempts as [|n]; [lia|]. clear Hn.
  induction n as [|n IH]; intros w.
  - now exists [EvGet url h (fst (requests_get url h w))].
  - destruct (IH (after_miss url h w)) as (t & Ht).
    exists (EvGet url h (fst (requests_get url h w)) :: EvSleep 2 :: t).
    change (miss_trace url h (S (S n)) w)
      with (EvGet url h (fst (requests_get url h w)) :: EvSleep 2
              :: miss_trace url h (S n) (after_miss url h w)).
    now rewrite Ht.
Qed.

(** C1, as the code has it. The poll knows no permanent error: on attempt
    [k <= max_attempts], the earlier attempts having missed,
    - a response with a status other than 200, whatever the status, is
      slept on like a miss: the run starts with [k] checks each followed by
      a sleep of 2, then makes check [k + 1] if [k < max_attempts] and
      fails with the timeout error if [k = max_attempts];
    - only a request that raises ends the poll at once: exactly [k] checks,
      no sleep after the last one, and the exception is propagated. *)
Theorem poll_retries_every_status (max_attempts k : nat) url h w :
  1 <= k <= max_attempts ->
  (forall j, j < k - 1 -> misses url h j w) ->
  (misses url h (k - 1) w ->
   exists t,
     trace_of (poll (range max_attempts) url h w) = miss_trace url h k w ++ t /\
     (k < max_attempts -> exists t', t = EvGet url h (attempt url h k w) :: t') /\
     (k = max_attempts ->
      t = [] /\ result_of (poll (range max_attempts) url h w) = inl TIMED_OUT))
  /\
  (forall msg, attempt url h (k - 1) w = inl msg ->
     result_of (poll (range max_attempts) url h w) = inl (RequestException msg) /\
     checks (trace_of (poll (range max_attempts) url h w)) = k /\
     sleeps (trace_of (poll (range max_attempts) url h w)) = k - 1).
Proof.
  intros Hk Hmiss. split.
  - intros Hlast.
    assert (Hall : forall j, j < k -> misses url h j w).
    { intros j Hj. destruct (Nat.eq_dec j (k - 1)) as [->|]; [assumption|].
      apply Hmiss. lia. }
    rewrite (poll_misses k) by (rewrite ?length_range; assumption || lia).
    destruct (Nat.eq_dec k max_attempts) as [->|Hne].
    + rewrite skipn_range. simpl. exists [].
      split; [reflexivity|]. split; [lia|]. intros _. split; reflexivity.
    + destruct (skipn_nonempty k (range max_attempts)) as (i & rng & ->);
        [rewrite length_range; lia|].
      destruct (poll_starts_with_check i rng url h (attempt_world url h k w))
        as (t' & Ht').
      destruct (poll (i :: rng) url h (attempt_world url h k w)) as [[r w'] t].
      unfold trace_of in *. simpl in *. subst t.
      eexists. split; [reflexivity|]. split; [|lia].
      intros _. now exists t'.
  - intros msg Hraise.
    rewrite (poll_first_raise (k - 1) _ _ _ _ msg);
      [|rewrite length_range; lia|assumption..].
    unfold result_of, trace_of; simpl.
    rewrite checks_app, sleeps_app, checks_miss_trace, sleeps_miss_trace.
    repeat split; [unfold checks; simpl; lia|unfold sleeps; simpl; lia].
Qed.

Lemma checks_posts_only t : (forall ev, In ev t -> is_post ev = true) -> checks t = 0.
Proof.
  induction t as [|e t IH]; intros H; [reflexivity|].
  unfold checks in *. simpl.
  pose proof (H e (or_introl eq_refl)) as He.
  destruct e; try discriminate. simpl. apply IH. intros ev Hev. apply H. now right.
Qed.

Lemma fork_github_repo_checks_le source token cfg environ w :
  checks (trace_of (fork_github_repo source token cfg environ w)) <= 10.
Proof.
  destruct (fork_github_repo_run source token cfg environ w)
    as [(e & _ & _ & Hposts)|(name & ev & w1 & Hev & -> & _)].
  - rewrite checks_posts_only by assumption. lia.
  - pose proof (poll_checks_le (range 10) (repo_url name) (auth_headers token) w1) as H.
    rewrite length_range in H.
    destruct ev; try discriminate. exact H.
Qed.

(** C4. The waiter always terminates ([poll] and [fork_github_repo] are
    total functions: every run has a result and a finite trace) and a run
    makes at most as many existence checks as its bound allows, whatever the
    outside world answers: at most [max_attempts] for the loop over
    [range(max_attempts)], at most 10 for [fork_github_repo]. *)
Theorem checks_bounded (max_attempts : nat) url h source token cfg environ w :
  (exists r w' t, poll (range max_attempts) url h w = (r, w', t) /\
                  checks t <= max_attempts) /\
  (exists r w' t, fork_github_repo source token cfg environ w = (r, w', t) /\
                  checks t <= 10).
Proof.
  split.
  - pose proof (poll_checks_le (range max_attempts) url h w) as H.
    rewrite length_range in H.
    destruct (poll (range max_attempts) url h w) as [[r w'] t]. now exists r, w', t.
  - pose proof (fork_github_repo_checks_le source token cfg environ w) as H.
    destruct (fork_github_repo source token cfg environ w) as [[r w'] t].
    now exists r, w', t.
Qed.

Lemma fork_github_repo_success_ready source token cfg environ w name :
  result_of (fork_github_repo source token cfg environ w) = inr name ->
  Exists ready_check (trace_of (fork_github_repo source token cfg environ w)).
Proof.
  destruct (fork_github_repo_run source token cfg environ w)
    as [(e & -> & _)|(name' & ev & w1 & Hev & -> & ->)]; [discriminate|].
  intros Hres. constructor 2. apply poll_success_ready.
  destruct (result_of (poll _ _ _ w1)) as [e|[]]; [discriminate|reflexivity].
Qed.

(** C5. Success needs a ready check: when the poll returns normally, one of
    the existence checks of that run got a response with status 200; and
    when [fork_github_repo] returns a name, one of its checks did. In
    particular no run succeeds without a check. *)
Theorem success_needs_ready_check rng url h source token cfg environ w name :
  (result_of (poll rng url h w) = inr tt ->
   Exists ready_check (trace_of (poll rng url h w)) /\
   1 <= checks (trace_of (poll rng url h w)))
  /\
  (result_of (fork_github_repo source token cfg environ w) = inr name ->
   Exists ready_check (trace_of (fork_github_repo source token cfg environ w)) /\
   1 <= checks (trace_of (fork_github_repo source token cfg environ w))).
Proof.
  assert (Hcount : forall t, Exists ready_check t -> 1 <= checks t).
  { induction 1 as [e t (u & hh & rr & -> & _)|e t _ IH].
    - unfold checks; simpl; lia.
    - unfold checks in *; simpl. destruct (is_get e); simpl; lia. }
  split; intros H.
  - apply poll_success_ready in H. auto.
  - apply fork_github_repo_success_ready in H. auto.
Qed.

Lemma fork_github_repo_sleeps_two source token cfg environ w secs :
  In (EvSleep secs) (trace_of (fork_github_repo source token cfg environ w)) ->
  secs = 2%Z.
Proof.
  destruct (fork_github_repo_run source token cfg environ w)
    as [(e & _ & _ & Hposts)|(name & ev & w1 & Hev & -> & _)].
  - intros Hin. apply Hposts in Hin. discriminate.
  - intros [->|Hin]; [discriminate|]. eapply poll_sleeps_two; eauto.
Qed.

Lemma fork_github_repo_timed_out source token cfg environ w :
  result_of (fork_github_repo source token cfg environ w) = inl TIMED_OUT ->
  checks (trace_of (fork_github_repo source token cfg environ w)) = 10 /\
  sleeps (trace_of (fork_github_repo source token cfg environ w)) = 10.
Proof.
  destruct (fork_github_repo_run source token cfg environ w)
    as [(e & -> & Hne & _)|(name & ev & w1 & Hev & -> & ->)];
    [intros [= ->]; contradiction|].
  intros Hres.
  destruct (poll_timeout_exhausted (range 10) (repo_url name) (auth_headers token) w1)
    as [Hc Hs].
  { destruct (result_of (poll _ _ _ w1)) as [e|[]]; [|discriminate]. congruence. }
  rewrite length_range in Hc, Hs.
  destruct ev; try discriminate. split; assumption.
Qed.

(** C8, as the code has it. The bound and the delay of the wait are the
    constants 10 and 2 written in [fork_github_repo]; no argument, no
    configuration value and no environment variable changes them: every
    sleep of every run lasts 2, and a run that times out has made exactly 10
    checks and 10 sleeps. *)
Theorem poll_parameters_fixed source token cfg environ w :
  (forall secs,
      In (EvSleep secs) (trace_of (fork_github_repo source token cfg environ w)) ->
      secs = 2%Z) /\
  (result_of (fork_github_repo source token cfg environ w) = inl TIMED_OUT ->
   checks (trace_of (fork_github_repo source token cfg environ w)) = 10 /\
   sleeps (trace_of (fork_github_repo source token cfg environ w)) = 10).
Proof.
  split.
  - intros secs. apply fork_github_repo_sleeps_two.
  - apply fork_github_repo_timed_out.
Qed.

Lemma not_poll_configurable : ~ poll_configurable.
Proof.
  intros (source & token & cfg & environ & w & [[Hres Hne]|(secs & Hin & Hne)]).
  - apply fork_github_repo_timed_out in Hres. tauto.
  - apply fork_github_repo_sleeps_two in Hin. contradiction.
Qed.

(** ** Strings *)

Lemma prefix_occurs c needle : forall hay,
  String.prefix needle hay = true -> occurs c needle = true -> occurs c hay = true.
Proof.
  induction needle as [|x needle IH]; intros hay Hp Hc; [discriminate Hc|].
  destruct hay as [|y hay]; [discriminate Hp|]. simpl in Hp, Hc |- *.
  destruct (ascii_dec x y) as [->|]; [|discriminate].
  destruct (Ascii.eqb y c); [reflexivity|]. simpl in *. now apply IH.
Qed.

Lemma contains_eq needle hay :
  contains needle hay =
  if String.prefix needle hay then true
  else match hay with
       | "" => false
       | String _ hay' => contains needle hay'
       end%string.
Proof. destruct hay; reflexivity. Qed.

Lemma contains_occurs c needle hay :
  contains needle hay = true -> occurs c needle = true -> occurs c hay = true.
Proof.
  induction hay as [|y hay IH]; intros Hc Ho.
  - rewrite contains_eq in Hc.
    destruct (String.prefix needle "") eqn:E; [|discriminate Hc].
    eapply prefix_occurs; eauto.
  - rewrite contains_eq in Hc.
    destruct (String.prefix needle (String y hay)) eqn:E.
    + eapply prefix_occurs; eauto.
    + simpl. rewrite IH by assumption. apply orb_true_r.
Qed.

Lemma occurs_has_digit c s : occurs c s = true -> is_digit c = true -> has_digit s = true.
Proof.
  induction s as [|x s IH]; intros Ho Hd; [discriminate Ho|].
  simpl in *. destruct (Ascii.eqb x c) eqn:E.
  - apply Ascii.eqb_eq in E. subst x. now rewrite Hd.
  - rewrite IH by assumption. apply orb_true_r.
Qed.

(** The decimal writing of a natural number starts with a digit. *)
Lemma str_of_nat_head (n : nat) :
  exists c rest, str_of_Z (Z.of_nat n) = String c rest /\ is_digit c = true.
Proof.
  unfold str_of_Z. destruct (Z.of_nat n) as [|p|p] eqn:E; [| |lia].
  - now exists "0"%char, "".
  - simpl. destruct (Pos.to_uint p); simpl; eexists _, _; split; reflexivity.
Qed.

Lemma occurs_split c : forall s,
  occurs c s = true -> exists a b, s = (a ++ String c b)%string /\ occurs c a = false.
Proof.
  induction s as [|x s IH]; intros H; [discriminate H|].
  simpl in H. destruct (Ascii.eqb x c) eqn:E.
  - apply Ascii.eqb_eq in E. subst x. now exists "", s.
  - destruct (IH H) as (a & b & -> & Ha). exists (String x a), b.
    split; [reflexivity|]. simpl. now rewrite E.
Qed.

Lemma py_split_without sep maxsplit : forall s,
  occurs sep s = false -> py_split sep maxsplit s = [s].
Proof.
  induction s as [|x s IH]; intros H; [reflexivity|].
  simpl in H |- *. apply orb_false_iff in H. destruct H as [Hx Hs].
  rewrite Hx, (IH Hs). reflexivity.
Qed.

Lemma py_split_zero sep : forall s, py_split sep (Some 0) s = [s].
Proof.
  induction s as [|x s IH]; [reflexivity|].
  simpl. rewrite IH. now destruct (Ascii.eqb x sep).
Qed.

(** [split(sep, 1)] cuts at the first separator only. *)
Lemma py_split_once sep b : forall a,
  occurs sep a = false ->
  py_split sep (Some 1) (a ++ String sep b) = [a; b].
Proof.
  induction a as [|x a IH]; intros H.
  - simpl. now rewrite Ascii.eqb_refl, py_split_zero.
  - simpl in H |- *. apply orb_false_iff in H. destruct H as [Hx Ha].
    rewrite Hx, (IH Ha). reflexivity.
Qed.

(** ** The timeout error *)

(** C6, as the code has it. When the attempts are used up without a 200, the
    poll fails with [RuntimeError] carrying one fixed text, whatever the
    handle and the bound: the text holds no digit, hence not the attempt
    count, and no ['/'], hence no handle of the form owner/name. *)
Theorem timeout_message_fixed (max_attempts : nat) (name : json) h w :
  (forall j, j < max_attempts -> misses (repo_url name) h j w) ->
  result_of (poll (range max_attempts) (repo_url name) h w)
    = inl (RuntimeError "Timed out waiting for fork to be available") /\
  contains (str_of_Z (Z.of_nat max_attempts))
    "Timed out waiting for fork to be available" = false /\
  (occurs "/" (py_format name) = true ->
   contains (py_format name) "Timed out waiting for fork to be available" = false).
Proof.
  intros Hmiss. split; [|split].
  - rewrite poll_all_miss; rewrite length_range; [reflexivity|assumption].
  - destruct (str_of_nat_head max_attempts) as (c & rest & -> & Hd).
    destruct (contains _ _) eqn:E; [|reflexivity].
    assert (Ho : occurs c (String c rest) = true) by (simpl; now rewrite Ascii.eqb_refl).
    pose proof (occurs_has_digit _ _ (contains_occurs _ _ _ E Ho) Hd) as Hbad.
    vm_compute in Hbad. discriminate.
  - intros Ho. destruct (contains _ _) eqn:E; [|reflexivity].
    pose proof (contains_occurs _ _ _ E Ho) as Hbad.
    vm_compute in Hbad. discriminate.
Qed.

(** ** The source argument *)

Lemma unpack_source owner repo :
  occurs "/" owner = false ->
  unpack2 (py_split "/" (Some 1) (owner ++ String "/" repo)) = inr (owner, repo).
Proof. intros H. now rewrite py_split_once. Qed.

(** Without a ['/'] the unpacking raises [ValueError] before any request. *)
Lemma source_without_slash_raises source token cfg environ w :
  occurs "/" source = false ->
  fork_github_repo source token cfg environ w =
  (inl (ValueError "not enough values to unpack (expected 2, got 1)"), w, []).
Proof.
  intros H. rewrite fork_github_repo_eq, py_split_without by assumption. reflexivity.
Qed.


(** ** The handle *)

(** A creation answer without [full_name]: the run is the creation request
    followed by the poll of the name built from the configuration, the
    environment and the repository name. *)
Lemma fork_unnamed_run owner repo token cfg environ w :
  occurs "/" owner = false ->
  creation_unnamed owner repo token cfg w ->
  exists ev w1,
    is_post ev = true /\
    fork_github_repo (owner ++ String "/" repo) token cfg environ w =
    match poll (range 10) (repo_url (JStr (fallback_full_name cfg environ repo)))
            (auth_headers token) w1 with
    | (inl e, w2, t) => (inl e, w2, ev :: t)
    | (inr _, w2, t) => (inr (JStr (fallback_full_name cfg environ repo)), w2, ev :: t)
    end.
Proof.
  intros Ho (r & w1 & d & Hpost & Hver & Hjson & Hget).
  rewrite fork_github_repo_eq, unpack_source by assumption. cbv zeta.
  rewrite Hpost, Hver. unfold resp_json. rewrite Hjson. simpl py_get.
  rewrite Hget. simpl truthy. simpl negb. cbv iota.
  eexists _, w1. split; [|reflexivity]. reflexivity.
Qed.

Lemma fork_unnamed_handle owner repo token cfg environ w :
  occurs "/" owner = false ->
  creation_unnamed owner repo token cfg w ->
  hd_error (checked_urls (trace_of (fork_github_repo (owner ++ String "/" repo)
                                      token cfg environ w)))
    = Some (repo_url (JStr (fallback_full_name cfg environ repo))) /\
  Forall (eq (repo_url (JStr (fallback_full_name cfg environ repo))))
    (checked_urls (trace_of (fork_github_repo (owner ++ String "/" repo)
                               token cfg environ w))) /\
  (forall name,
      result_of (fork_github_repo (owner ++ String "/" repo) token cfg environ w)
        = inr name ->
      name = JStr (fallback_full_name cfg environ repo)).
Proof.
  intros Ho Hc.
  destruct (fork_unnamed_run owner repo token cfg environ w Ho Hc)
    as (ev & w1 & Hev & ->).
  set (url := repo_url (JStr (fallback_full_name cfg environ repo))).
  pose proof (poll_checked_urls (range 10) url (auth_headers token) w1) as Hall.
  destruct (poll_starts_with_check 0 (seq 1 9) url (auth_headers token) w1)
    as (t' & Hhd).
  change (0 :: seq 1 9) with (range 10) in Hhd.
  destruct (poll (range 10) url (auth_headers token) w1) as [[[e|[]] w2] t];
    unfold trace_of, result_of in *; simpl in Hhd, Hall |- *; subst t;
    destruct ev; try discriminate; simpl in *;
    (split; [reflexivity|]); (split; [assumption|]);
    intros name [= <-]; reflexivity.
Qed.

(** C7. When the creation answer has no [full_name], the handle that is
    polled and returned is [target/repo], where [target] is the first
    non-empty one of the configured organization, the configured user and
    the environment's [GITHUB_ACTOR] (else empty) and [repo] is the
    repository part of [source]. It depends on nothing else: two runs with
    the same configuration, environment and source, in any two worlds and
    with any two tokens, poll and return the same handle. *)
Theorem derived_handle_deterministic
    owner repo cfg environ token1 token2 (w1 w2 : World) :
  occurs "/" owner = false ->
  creation_unnamed owner repo token1 cfg w1 ->
  creation_unnamed owner repo token2 cfg w2 ->
  exists handle,
    handle =
      (or_str (github_org cfg)
         (or_str (github_user cfg)
            (or_str (match environ "GITHUB_ACTOR" with Some a => a | None => "" end)
               "")) ++ "/" ++ repo)%string /\
    (forall token w,
        (token = token1 /\ w = w1) \/ (token = token2 /\ w = w2) ->
        hd_error (checked_urls (trace_of (fork_github_repo (owner ++ "/" ++ repo)
                                            token cfg environ w)))
          = Some (GITHUB_API ++ "/repos/" ++ handle)%string /\
        Forall (eq (GITHUB_API ++ "/repos/" ++ handle)%string)
          (checked_urls (trace_of (fork_github_repo (owner ++ "/" ++ repo)
                                     token cfg environ w))) /\
        (forall name,
            result_of (fork_github_repo (owner ++ "/" ++ repo) token cfg environ w)
              = inr name ->
            name = JStr handle)).
Proof.
  intros Ho H1 H2. eexists. split; [reflexivity|].
  intros token w [[-> ->]|[-> ->]];
    now apply (fork_unnamed_handle owner repo _ cfg environ).
Qed.

(** ** Releases *)

(** C9. When the listing of the fork's releases is answered, passes
    [verify_response] and is a non-empty list whose first element is an
    object, [ensure_github_release] returns the [html_url] of that first
    release ([None] if it has none) and its only request is the listing: no
    creation request is sent, and the world is as the listing left it. *)
Theorem existing_release_untouched name token cfg w r w1 d rest :
  requests_get (repo_url name ++ "/releases") (auth_headers token) w = (inr r, w1) ->
  verify_response r (mime_arg cfg) = inr true ->
  json_body r = Some (JList (JDict d :: rest)) ->
  result_of (ensure_github_release name token cfg w)
    = inr (match dict_get d "html_url" with Some u => u | None => JNull end) /\
  trace_of (ensure_github_release name token cfg w)
    = [EvGet (repo_url name ++ "/releases") (auth_headers token) (inr r)] /\
  posts (trace_of (ensure_github_release name token cfg w)) = 0 /\
  world_of (ensure_github_release name token cfg w) = w1.
Proof.
  intros Hget Hver Hjson.
  unfold ensure_github_release, bind, get, lift, ret, resp_json.
  rewrite Hget, Hver, Hjson. simpl. repeat split.
Qed.

End Properties.

(** * The properties on scripted worlds *)

Lemma poll_ready_on_attempt_witness :
  result_of (poll (range 3) Fake.hello_url [] Fake.becomes_ready) = inr tt /\
  checks (trace_of (poll (range 3) Fake.hello_url [] Fake.becomes_ready)) = 3 /\
  sleeps (trace_of (poll (range 3) Fake.hello_url [] Fake.becomes_ready)) = 3 - 1 /\
  exists t e,
    trace_of (poll (range 3) Fake.hello_url [] Fake.becomes_ready) = (t ++ [e])%list /\
    ready_check e.
Proof.
  apply (poll_ready_on_attempt 3 3 Fake.hello_url [] Fake.becomes_ready).
  - lia.
  - intros j Hj. destruct j as [|[|j]].
    + eexists. split; [reflexivity|discriminate].
    + eexists. split; [reflexivity|discriminate].
    + simpl in Hj. lia.
  - eexists. split; reflexivity.
Defined.

Lemma poll_never_ready_witness :
  result_of (poll (range 1) Fake.hello_url [] (Fake.start [] [])) = inl TIMED_OUT /\
  checks (trace_of (poll (range 1) Fake.hello_url [] (Fake.start [] []))) = 1 /\
  sleeps (trace_of (poll (range 1) Fake.hello_url [] (Fake.start [] []))) = 1 /\
  exists t,
    trace_of (poll (range 1) Fake.hello_url [] (Fake.start [] [])) = (t ++ [EvSleep 2])%list.
Proof.
  apply (poll_never_ready 1 Fake.hello_url [] (Fake.start [] [])).
  - lia.
  - intros j Hj. destruct j as [|j].
    + eexists. split; [reflexivity|discriminate].
    + lia.
Defined.

(** The claim of C2 fails on the code: with the fork never visible, the ten
    checks of [fork_github_repo] are followed by ten sleeps, not nine; with
    one turn, the single check is followed by a sleep. *)
Lemma sleep_after_last_check :
  result_of (fork_github_repo "octo/hello" "tok" Fake.cfg Fake.no_environ Fake.never_ready)
    = inl TIMED_OUT /\
  checks (trace_of (fork_github_repo "octo/hello" "tok" Fake.cfg Fake.no_environ
                      Fake.never_ready)) = 10 /\
  sleeps (trace_of (fork_github_repo "octo/hello" "tok" Fake.cfg Fake.no_environ
                      Fake.never_ready)) <> 10 - 1 /\
  trace_of (poll (range 1) Fake.hello_url [] (Fake.start [] []))
    = [EvGet Fake.hello_url [] (inr Fake.not_found); EvSleep 2].
Proof.
  repeat split. vm_compute. discriminate.
Qed.

Lemma poll_retries_every_status_witness :
  (exists t,
      trace_of (poll (range 3) Fake.hello_url [] Fake.refused_twice)
        = (miss_trace Fake.hello_url [] 2 Fake.refused_twice ++ t)%list /\
      (2 < 3 ->
       exists t', t = EvGet Fake.hello_url [] (attempt Fake.hello_url [] 2 Fake.refused_twice)
                        :: t') /\
      (2 = 3 ->
       t = [] /\
       result_of (poll (range 3) Fake.hello_url [] Fake.refused_twice) = inl TIMED_OUT))
  /\
  (result_of (poll (range 3) Fake.hello_url [] Fake.breaks_down)
     = inl (RequestException "connection reset") /\
   checks (trace_of (poll (range 3) Fake.hello_url [] Fake.breaks_down)) = 2 /\
   sleeps (trace_of (poll (range 3) Fake.hello_url [] Fake.breaks_down)) = 2 - 1).
Proof.
  split.
  - apply (poll_retries_every_status 3 2 Fake.hello_url [] Fake.refused_twice).
    + lia.
    + intros j Hj. destruct j as [|j].
      * eexists. split; [reflexivity|discriminate].
      * simpl in Hj. lia.
    + eexists. split; [reflexivity|discriminate].
  - apply (poll_retries_every_status 3 2 Fake.hello_url [] Fake.breaks_down).
    + lia.
    + intros j Hj. destruct j as [|j].
      * eexists. split; [reflexivity|discriminate].
      * simpl in Hj. lia.
    + reflexivity.
Defined.

(** The claim of C1 fails on the code: the first check of the fork is
    answered 401, a permanent error in the specification's reading, and the
    run does not stop after that one check: it sleeps, checks ten times in
    all, and fails with the timeout error. *)
Lemma permanent_error_is_retried :
  (exists rr,
      nth_error (trace_of (fork_github_repo "octo/hello" "tok" Fake.cfg Fake.no_environ
                             Fake.unauthorized)) 1
        = Some (EvGet Fake.hello_url (auth_headers "tok") (inr rr)) /\
      spec_outcome rr = permanent_error) /\
  nth_error (trace_of (fork_github_repo "octo/hello" "tok" Fake.cfg Fake.no_environ
                         Fake.unauthorized)) 2 = Some (EvSleep 2) /\
  checks (trace_of (fork_github_repo "octo/hello" "tok" Fake.cfg Fake.no_environ
                      Fake.unauthorized)) <> 1 /\
  checks (trace_of (fork_github_repo "octo/hello" "tok" Fake.cfg Fake.no_environ
                      Fake.unauthorized)) = 10 /\
  result_of (fork_github_repo "octo/hello" "tok" Fake.cfg Fake.no_environ Fake.unauthorized)
    = inl TIMED_OUT.
Proof.
  split; [eexists; split; reflexivity|].
  repeat split. vm_compute. discriminate.
Qed.

Lemma success_needs_ready_check_witness :
  (Exists ready_check (trace_of (poll (range 3) Fake.hello_url [] Fake.becomes_ready)) /\
   1 <= checks (trace_of (poll (range 3) Fake.hello_url [] Fake.becomes_ready)))
  /\
  (Exists ready_check
     (trace_of (fork_github_repo "octo/hello" "tok" Fake.cfg Fake.no_environ Fake.unnamed)) /\
   1 <= checks
          (trace_of (fork_github_repo "octo/hello" "tok" Fake.cfg Fake.no_environ
                       Fake.unnamed))).
Proof.
  split.
  - apply (proj1 (success_needs_ready_check (range 3) Fake.hello_url []
                    "octo/hello" "tok" Fake.cfg Fake.no_environ Fake.becomes_ready
                    (JStr "alice/hello"))).
    reflexivity.
  - apply (proj2 (success_needs_ready_check (range 3) Fake.hello_url []
                    "octo/hello" "tok" Fake.cfg Fake.no_environ Fake.unnamed
                    (JStr "alice/hello"))).
    reflexivity.
Defined.

Lemma timeout_message_fixed_witness :
  result_of (poll (range 3) (repo_url (JStr "alice/hello")) [] (Fake.start [] []))
    = inl (RuntimeError "Timed out waiting for fork to be available") /\
  contains (str_of_Z (Z.of_nat 3)) "Timed out waiting for fork to be available" = false /\
  (occurs "/" (py_format (outside := Fake.fake_outside) (JStr "alice/hello")) = true ->
   contains (py_format (outside := Fake.fake_outside) (JStr "alice/hello"))
     "Timed out waiting for fork to be available" = false).
Proof.
  apply (timeout_message_fixed 3 (JStr "alice/hello") [] (Fake.start [] [])).
  intros j Hj. destruct j as [|[|[|j]]].
  - eexists. split; [reflexivity|discriminate].
  - eexists. split; [reflexivity|discriminate].
  - eexists. split; [reflexivity|discriminate].
  - simpl in Hj. lia.
Defined.

(** The claim of C6 fails on the code: the wait for [alice/hello] gives up
    after ten checks with an error whose text holds neither the handle nor
    the count. *)
Lemma timeout_names_nothing :
  exists msg,
    result_of (fork_github_repo "octo/hello" "tok" Fake.cfg Fake.no_environ
                 Fake.never_ready) = inl (RuntimeError msg) /\
    checked_urls (trace_of (fork_github_repo "octo/hello" "tok" Fake.cfg
                              Fake.no_environ Fake.never_ready))
      = repeat (GITHUB_API ++ "/repos/" ++ "alice/hello") 10 /\
    contains "alice/hello" msg = false /\
    contains "10" msg = false.
Proof.
  eexists. repeat split.
Qed.

Lemma derived_handle_deterministic_witness :
  exists handle,
    handle = "alice/hello" /\
    (forall token w,
        (token = "tok1" /\ w = Fake.unnamed) \/
        (token = "tok2" /\ w = Fake.unnamed_never_ready) ->
        hd_error (checked_urls (trace_of (fork_github_repo ("octo" ++ "/" ++ "hello")
                                            token Fake.cfg Fake.no_environ w)))
          = Some (GITHUB_API ++ "/repos/" ++ handle) /\
        Forall (eq (GITHUB_API ++ "/repos/" ++ handle))
          (checked_urls (trace_of (fork_github_repo ("octo" ++ "/" ++ "hello")
                                     token Fake.cfg Fake.no_environ w))) /\
        (forall name,
            result_of (fork_github_repo ("octo" ++ "/" ++ "hello") token Fake.cfg
                         Fake.no_environ w) = inr name ->
            name = JStr handle)).
Proof.
  apply (derived_handle_deterministic "octo" "hello" Fake.cfg Fake.no_environ
           "tok1" "tok2" Fake.unnamed Fake.unnamed_never_ready).
  - reflexivity.
  - eexists _, _, _. repeat split.
  - eexists _, _, _. repeat split.
Defined.

Lemma poll_parameters_fixed_witness :
  checks (trace_of (fork_github_repo "octo/hello" "tok" Fake.cfg Fake.no_environ
                      Fake.never_ready)) = 10 /\
  sleeps (trace_of (fork_github_repo "octo/hello" "tok" Fake.cfg Fake.no_environ
                      Fake.never_ready)) = 10.
Proof.
  apply (proj2 (poll_parameters_fixed "octo/hello" "tok" Fake.cfg Fake.no_environ
                  Fake.never_ready)).
  reflexivity.
Defined.

(** The claim of C8 fails on the code: in no outside world does any source,
    token, configuration or environment make the wait use another bound or
    another delay. *)
Lemma nothing_configures_the_poll :
  ~ exists (World : Type) (outside : Outside World), @poll_configurable World outside.
Proof.
  intros (World & outside & H). exact (not_poll_configurable H).
Qed.

Lemma existing_release_untouched_witness :
  result_of (ensure_github_release (JStr "alice/hello") "tok" Fake.cfg Fake.released)
    = inr (JStr "https://github.com/alice/hello/releases/tag/v1") /\
  trace_of (ensure_github_release (JStr "alice/hello") "tok" Fake.cfg Fake.released)
    = [EvGet (Fake.hello_url ++ "/releases") (auth_headers "tok")
         (inr (Fake.response 200
                 (Some (JList [JDict Fake.first_release; JDict []]))))] /\
  posts (trace_of (ensure_github_release (JStr "alice/hello") "tok" Fake.cfg
                     Fake.released)) = 0 /\
  world_of (ensure_github_release (JStr "alice/hello") "tok" Fake.cfg Fake.released)
    = Fake.start [] [].
Proof.
  apply (existing_release_untouched (JStr "alice/hello") "tok" Fake.cfg Fake.released
           (Fake.response 200 (Some (JList [JDict Fake.first_release; JDict []])))
           (Fake.start [] []) Fake.first_release [JDict []]).
  - reflexivity.
  - reflexivity.
  - reflexivity.
Defined.


Example split_keeps_later_slashes :
  unpack2 (py_split "/" (Some 1) "octo/hello/world") = inr ("octo", "hello/world").
Proof. reflexivity. Qed.

(** * Further properties of the tool *)

(** ** Stripping and splitting *)

Lemma lstrip_head s c s' : lstrip s = String c s' -> is_space c = false.
Proof.
  induction s as [|x s IH]; simpl; [discriminate|].
  destruct (is_space x) eqn:E; [assumption|]. now intros [= <- _].
Qed.

Lemma rstrip_head s c r :
  rstrip s = String c r -> exists s', s = String c s'.
Proof.
  destruct s as [|x s]; simpl; [discriminate|].
  destruct (is_space x && (rstrip s =? "")); [discriminate|].
  intros [= <- _]. now exists s.
Qed.

Lemma lstrip_clean s :
  (forall c s', s = String c s' -> is_space c = false) -> lstrip s = s.
Proof.
  destruct s as [|x s]; intros H; [reflexivity|].
  simpl. now rewrite (H x s eq_refl).
Qed.

Lemma rstrip_idem s : rstrip (rstrip s) = rstrip s.
Proof.
  induction s as [|x s IH]; [reflexivity|]. simpl.
  destruct (is_space x && (rstrip s =? "")) eqn:E; [reflexivity|].
  simpl. now rewrite IH, E.
Qed.

Lemma strip_idem s : strip (strip s) = strip s.
Proof.
  unfold strip. rewrite (lstrip_clean (rstrip (lstrip s))).
  - apply rstrip_idem.
  - intros c r Hr. destruct (rstrip_head _ _ _ Hr) as (s' & Hs').
    eapply lstrip_head; eauto.
Qed.

Lemma occurs_lstrip c s : occurs c s = false -> occurs c (lstrip s) = false.
Proof.
  induction s as [|x s IH]; [reflexivity|]. simpl.
  intros H. apply orb_false_iff in H. destruct H as [Hx Hs].
  destruct (is_space x); [auto|]. simpl. now rewrite Hx, Hs.
Qed.

Lemma occurs_rstrip c s : occurs c s = false -> occurs c (rstrip s) = false.
Proof.
  induction s as [|x s IH]; [reflexivity|]. simpl.
  intros H. apply orb_false_iff in H. destruct H as [Hx Hs].
  destruct (is_space x && (rstrip s =? "")); [reflexivity|].
  simpl. now rewrite Hx, IH.
Qed.

Lemma occurs_strip c s : occurs c s = false -> occurs c (strip s) = false.
Proof. intros H. unfold strip. now apply occurs_rstrip, occurs_lstrip. Qed.

(** No part of an unlimited split holds the separator. *)
Lemma py_split_parts sep : forall s part,
  In part (py_split sep None s) -> occurs sep part = false.
Proof.
  induction s as [|x s IH]; intros part Hin.
  - destruct Hin as [<-|[]]. reflexivity.
  - simpl in Hin. destruct (Ascii.eqb x sep) eqn:E.
    + destruct Hin as [<-|Hin]; [reflexivity|auto].
    + destruct (py_split sep None s) as [|p ps] eqn:Es.
      * destruct Hin as [<-|[]]. simpl. now rewrite E.
      * destruct Hin as [<-|Hin].
        -- simpl. rewrite E. apply IH. now left.
        -- apply IH. now right.
Qed.

(** The first part of an unlimited split is the text before the first
    separator. *)
Lemma py_split_head sep b : forall a,
  occurs sep a = false ->
  hd "" (py_split sep None (a ++ String sep b)) = a.
Proof.
  induction a as [|x a IH]; intros H.
  - simpl. now rewrite Ascii.eqb_refl.
  - simpl in H |- *. apply orb_false_iff in H. destruct H as [Hx Ha].
    rewrite Hx. specialize (IH Ha).
    destruct (py_split sep None (a ++ String sep b)) as [|p ps]; simpl in *;
      now subst.
Qed.

Lemma mem_str_In x l : mem_str x l = true <-> In x l.
Proof.
  induction l as [|y l IH]; simpl; [split; [intros H; discriminate H|intros []]|].
  rewrite orb_true_iff, IH, String.eqb_eq. split; intros [H|H]; auto.
Qed.

(** ** [load_config] *)

Lemma mime_list_clean allowed m :
  In m (mime_list allowed) -> m <> "" /\ strip m = m /\ occurs "," m = false.
Proof.
  unfold mime_list. rewrite in_map_iff. intros (p & <- & Hp).
  apply filter_In in Hp. destruct Hp as [Hin Hne].
  apply negb_true_iff, String.eqb_neq in Hne.
  repeat split; [assumption|apply strip_idem|].
  apply occurs_strip. eapply py_split_parts; eauto.
Qed.

(** X1. Whatever the configuration file holds, every allowed MIME type that
    [load_config] returns is non-empty, has no white space around it and no
    comma in it. *)
Theorem allowed_mime_clean (findtext : string -> option string) (m : string) :
  In m (allowed_mime (load_config findtext)) ->
  m <> "" /\ strip m = m /\ occurs "," m = false.
Proof. apply mime_list_clean. Qed.

Lemma findtext_or_nonempty findtext path default :
  default <> "" -> findtext_or findtext path default <> "".
Proof.
  intros Hd. unfold findtext_or, or_str.
  destruct (findtext path) as [s|]; [|assumption].
  destruct (s =? "") eqn:E; [assumption|]. now apply String.eqb_neq.
Qed.

(** ** [verify_response] *)

Lemma verify_response_inv r allowed b :
  verify_response r allowed = inr b ->
  b = true /\ (200 <= status_code r < 300)%Z /\
  (forall l, allowed = Some l -> l <> [] -> In (content_type r) l).
Proof.
  unfold verify_response.
  destruct ((200 <=? status_code r)%Z && (status_code r <? 300)%Z) eqn:Es;
    simpl negb; cbv iota; [|discriminate].
  apply andb_true_iff in Es. destruct Es as [H1 H2].
  apply Z.leb_le in H1. apply Z.ltb_lt in H2.
  destruct allowed as [[|a l]|].
  - intros [= <-]. repeat split; try lia. now intros l [= <-] H.
  - fold (content_type r).
    destruct (mem_str (content_type r) (a :: l)) eqn:Em;
      simpl negb; cbv iota; [|discriminate].
    intros [= <-]. repeat split; try lia. intros l' [= <-] _.
    now apply mem_str_In.
  - intros [= <-]. repeat split; try lia. discriminate.
Qed.

(** X2. [verify_response] has one normal result, [True]; when it returns,
    the status is in 200..299 and, if a non-empty list of MIME types was
    given, the response's Content-Type - cut at the first [';'] and
    stripped - is one of them. Every other response raises. *)
Theorem verify_response_sound (r : Response) (allowed : option (list string)) (b : bool) :
  verify_response r allowed = inr b ->
  b = true /\ (200 <= status_code r < 300)%Z /\
  (forall l, allowed = Some l -> l <> [] -> In (content_type r) l).
Proof. apply verify_response_inv. Qed.

(** X3. The parameters of a Content-Type do not count: two responses that
    differ only by a [;parameters] suffix of that header get the same
    verdict. *)
Theorem mime_parameters_ignored
    (r1 r2 : Response) (ct params : string) (allowed : option (list string)) :
  status_code r1 = status_code r2 ->
  text r1 = text r2 ->
  headers_get (headers r1) "Content-Type" "" = ct ->
  headers_get (headers r2) "Content-Type" "" = ct ++ ";" ++ params ->
  occurs ";" ct = false ->
  verify_response r2 allowed = verify_response r1 allowed.
Proof.
  intros Hs Ht H1 H2 Hct. unfold verify_response.
  rewrite Hs, Ht, H1, H2.
  change (ct ++ ";" ++ params) with (ct ++ String ";" params).
  now rewrite py_split_head, py_split_without.
Qed.

(** X4. A configuration that requires a MIME type and allows at least one
    rejects every 2xx response without a Content-Type: the empty type is
    never among the allowed ones. *)
Theorem missing_content_type_rejected (findtext : string -> option string) (r : Response) :
  require_mime (load_config findtext) = true ->
  allowed_mime (load_config findtext) <> [] ->
  (200 <= status_code r < 300)%Z ->
  content_type r = "" ->
  verify_response r (mime_arg (load_config findtext))
    = inl (RuntimeError "Unexpected MIME type: ").
Proof.
  intros Hreq Hne Hst Hct. unfold mime_arg. rewrite Hreq.
  remember (allowed_mime (load_config findtext)) as am eqn:Eam.
  assert (Hmem : mem_str "" am = false).
  { destruct (mem_str "" am) eqn:Em; [|reflexivity].
    apply mem_str_In in Em. rewrite Eam in Em.
    apply mime_list_clean in Em. now destruct Em as [Hbad _]. }
  unfold verify_response. fold (content_type r). rewrite Hct.
  replace ((200 <=? status_code r)%Z && (status_code r <? 300)%Z) with true
    by (symmetry; apply andb_true_iff; split; [apply Z.leb_le|apply Z.ltb_lt]; lia).
  destruct am as [|a l]; [contradiction|].
  change (negb true) with false. cbv iota. now rewrite Hmem.
Qed.

Section Extras.

Context {World : Type} {outside : Outside World} {runtime : Runtime World}.

Implicit Types (url : string) (h : Headers) (w : World) (t : list event).
Implicit Types (rng : list nat) (cfg : Config).

Local Open Scope list_scope.

(** ** The shape of a poll *)

Lemma poll_posts rng url h w : posts (trace_of (poll rng url h w)) = 0.
Proof.
  revert w; induction rng as [|i rng IH]; intros w; [reflexivity|].
  rewrite poll_step.
  destruct (requests_get url h w) as [[msg|rr] w1]; [reflexivity|].
  destruct (status_code rr =? 200)%Z; [reflexivity|].
  specialize (IH (time_sleep 2 w1)).
  destruct (poll rng url h (time_sleep 2 w1)) as [[r w2] t]. exact IH.
Qed.

(** Checks and sleeps alternate, starting with a check; each sleep lasts 2;
    a normal return ends with a check that answered 200. *)
Lemma poll_shape rng url h w :
  sleeps (trace_of (poll rng url h w)) <= checks (trace_of (poll rng url h w)) /\
  checks (trace_of (poll rng url h w)) <= S (sleeps (trace_of (poll rng url h w))) /\
  slept_seconds (trace_of (poll rng url h w))
    = (2 * Z.of_nat (sleeps (trace_of (poll rng url h w))))%Z /\
  (result_of (poll rng url h w) = inr tt ->
   checks (trace_of (poll rng url h w)) = S (sleeps (trace_of (poll rng url h w))) /\
   exists t rr,
     trace_of (poll rng url h w) = t ++ [EvGet url h (inr rr)] /\
     status_code rr = 200%Z).
Proof.
  revert w; induction rng as [|i rng IH]; intros w.
  - simpl. unfold checks, sleeps. simpl. repeat split; try lia;
      match goal with H : result_of _ = inr _ |- _ => cbv in H; discriminate H end.
  - rewrite poll_step.
    destruct (requests_get url h w) as [[msg|rr] w1].
    { unfold checks, sleeps; simpl. repeat split; try lia;
        match goal with H : result_of _ = inr _ |- _ => cbv in H; discriminate H end. }
    destruct (status_code rr =? 200)%Z eqn:E.
    { unfold checks, sleeps; simpl. repeat split; try lia.
      exists [], rr. split; [reflexivity|]. now apply Z.eqb_eq. }
    specialize (IH (time_sleep 2 w1)).
    destruct (poll rng url h (time_sleep 2 w1)) as [[r w2] t].
    unfold result_of, trace_of, checks, sleeps in *.
    cbn [fst snd filter is_get is_sleep length slept_seconds] in *.
    destruct IH as (H1 & H2 & H3 & H4).
    split; [lia|]. split; [lia|]. split; [lia|]. intros Hr.
    destruct (H4 Hr) as (H5 & t' & rr' & -> & Hst). split; [lia|].
    exists (EvGet url h (inr rr) :: EvSleep 2 :: t'), rr'. now split.
Qed.

(** ** [fork_github_repo] *)

(** X5. [fork_github_repo] sends the creation request exactly once when
    [source] has a ['/'] and never otherwise: the creation is not retried,
    whatever the answers. *)
Theorem creation_requested_once source token cfg environ w :
  posts (trace_of (fork_github_repo source token cfg environ w))
    = if occurs "/" source then 1 else 0.
Proof.
  destruct (occurs "/" source) eqn:Hs.
  - destruct (occurs_split _ _ Hs) as (owner & repo & -> & Ho).
    rewrite fork_github_repo_eq, unpack_source by assumption. cbv zeta.
    destruct (requests_post _ _ _ w) as [[msg|r] w1]; [reflexivity|].
    destruct (verify_response r (mime_arg cfg)); [reflexivity|].
    destruct (resp_json r) as [e|fork_info]; [reflexivity|].
    destruct (py_get fork_info "full_name") as [e|full_name]; [reflexivity|].
    match goal with |- context [poll ?a ?b ?c ?d] =>
      pose proof (poll_posts a b c d) as Hp;
      destruct (poll a b c d) as [[[e|[]] w2] t]
    end; unfold trace_of, posts in *; simpl in *; now rewrite Hp.
  - now rewrite source_without_slash_raises.
Qed.

(** X6. No existence check without an accepted creation: a run that makes a
    check started with a creation request whose answer had a status in
    200..299 and a JSON object as body. *)
Theorem checks_need_accepted_creation source token cfg environ w :
  1 <= checks (trace_of (fork_github_repo source token cfg environ w)) ->
  exists url h payload r d t,
    trace_of (fork_github_repo source token cfg environ w)
      = EvPost url h payload (inr r) :: t /\
    (200 <= status_code r < 300)%Z /\
    json_body r = Some (JDict d).
Proof.
  rewrite fork_github_repo_eq.
  destruct (unpack2 _) as [e|[owner repo]]; [unfold checks; simpl; lia|].
  cbv zeta.
  destruct (requests_post _ _ _ w) as [[msg|r] w1]; [unfold checks; simpl; lia|].
  destruct (verify_response r (mime_arg cfg)) as [e|b] eqn:Ev;
    [unfold checks; simpl; lia|].
  destruct (resp_json r) as [e|fork_info] eqn:Ej; [unfold checks; simpl; lia|].
  destruct (py_get fork_info "full_name") as [e|full_name] eqn:Eg;
    [unfold checks; simpl; lia|].
  intros _.
  assert (Hd : exists d, json_body r = Some (JDict d)).
  { unfold resp_json in Ej. destruct (json_body r) as [v|]; [|discriminate].
    injection Ej as ->. destruct fork_info; try discriminate. eauto. }
  destruct Hd as (d & Hd).
  destruct (verify_response_inv _ _ _ Ev) as (_ & Hst & _).
  destruct (poll (range 10) _ _ w1) as [[[e|[]] w2] t];
    do 4 eexists; exists d; eexists; (split; [reflexivity|]); split; assumption.
Qed.

(** An accepted creation: the run is the creation request followed by the
    poll of the name chosen from the answer. *)
Lemma fork_accepted_run owner repo token cfg environ w r w1 d :
  occurs "/" owner = false ->
  requests_post (forks_url owner repo) (auth_headers token) (fork_payload cfg) w
    = (inr r, w1) ->
  verify_response r (mime_arg cfg) = inr true ->
  json_body r = Some (JDict d) ->
  exists ev,
    is_post ev = true /\
    forall name,
      name = (if negb (truthy (match dict_get d "full_name" with
                               | Some x => x
                               | None => JNull
                               end))
              then JStr (fallback_full_name cfg environ repo)
              else match dict_get d "full_name" with
                   | Some x => x
                   | None => JNull
                   end) ->
      fork_github_repo (owner ++ String "/" repo) token cfg environ w =
      match poll (range 10) (repo_url name) (auth_headers token) w1 with
      | (inl e, w2, t) => (inl e, w2, ev :: t)
      | (inr _, w2, t) => (inr name, w2, ev :: t)
      end.
Proof.
  intros Ho Hpost Hver Hjson.
  eexists. split; [|intros name ->].
  2:{ rewrite fork_github_repo_eq, unpack_source by assumption. cbv zeta.
      rewrite Hpost, Hver. unfold resp_json. rewrite Hjson. simpl py_get.
      reflexivity. }
  reflexivity.
Qed.

Lemma named_poll_run (name : json) ev url h w1 :
  is_post ev = true ->
  hd_error (checked_urls (trace_of
     match poll (range 10) url h w1 with
     | (inl e, w2, t) => (inl e, w2, ev :: t)
     | (inr _, w2, t) => (inr name, w2, ev :: t)
     end)) = Some url /\
  Forall (eq url) (checked_urls (trace_of
     match poll (range 10) url h w1 with
     | (inl e, w2, t) => (inl e, w2, ev :: t)
     | (inr _, w2, t) => (inr name, w2, ev :: t)
     end)) /\
  (forall n,
      result_of
        match poll (range 10) url h w1 with
        | (inl e, w2, t) => (inl e, w2, ev :: t)
        | (inr _, w2, t) => (@inr exn json name, w2, ev :: t)
        end = inr n ->
      n = name).
Proof.
  intros Hev.
  pose proof (poll_checked_urls (range 10) url h w1) as Hall.
  destruct (poll_starts_with_check 0 (seq 1 9) url h w1) as (t' & Hhd).
  change (0 :: seq 1 9) with (range 10) in Hhd.
  destruct (poll (range 10) url h w1) as [[[e|[]] w2] t];
    unfold trace_of, result_of in *; simpl in Hhd, Hall |- *; subst t;
    destruct ev; try discriminate; simpl in *;
    (split; [reflexivity|]); (split; [assumption|]);
    intros n [= <-]; reflexivity.
Qed.

(** X7. A creation answer that names the fork decides the handle: with a
    non-empty string as [full_name], every check goes to that repository and
    that name is returned; the configured organization and user and
    [GITHUB_ACTOR] play no part. *)
Theorem response_name_is_polled owner repo token cfg environ w r w1 d (s : string) :
  occurs "/" owner = false ->
  requests_post (forks_url owner repo) (auth_headers token) (fork_payload cfg) w
    = (inr r, w1) ->
  verify_response r (mime_arg cfg) = inr true ->
  json_body r = Some (JDict d) ->
  dict_get d "full_name" = Some (JStr s) ->
  s <> ""%string ->
  hd_error (checked_urls (trace_of (fork_github_repo (owner ++ "/" ++ repo)
                                      token cfg environ w)))
    = Some (GITHUB_API ++ "/repos/" ++ s)%string /\
  Forall (eq (GITHUB_API ++ "/repos/" ++ s)%string)
    (checked_urls (trace_of (fork_github_repo (owner ++ "/" ++ repo)
                               token cfg environ w))) /\
  (forall name,
      result_of (fork_github_repo (owner ++ "/" ++ repo) token cfg environ w)
        = inr name ->
      name = JStr s).
Proof.
  intros Ho Hpost Hver Hjson Hget Hs.
  destruct (fork_accepted_run owner repo token cfg environ w r w1 d Ho Hpost Hver Hjson)
    as (ev & Hev & Hrun).
  change (owner ++ "/" ++ repo)%string with (owner ++ String "/" repo)%string.
  rewrite (Hrun (JStr s)).
  - now apply (named_poll_run (JStr s) ev).
  - rewrite Hget. simpl. apply String.eqb_neq in Hs. now rewrite Hs.
Qed.

(** X8. A [full_name] that is present but falsy - [null], the empty
    string, [0], [false], an empty list or object - is treated like a
    missing one: the handle is the one built from the configuration, the
    environment and the repository name. *)
Theorem falsy_name_falls_back owner repo token cfg environ w r w1 d (v : json) :
  occurs "/" owner = false ->
  requests_post (forks_url owner repo) (auth_headers token) (fork_payload cfg) w
    = (inr r, w1) ->
  verify_response r (mime_arg cfg) = inr true ->
  json_body r = Some (JDict d) ->
  dict_get d "full_name" = Some v ->
  truthy v = false ->
  hd_error (checked_urls (trace_of (fork_github_repo (owner ++ "/" ++ repo)
                                      token cfg environ w)))
    = Some (GITHUB_API ++ "/repos/" ++ fallback_full_name cfg environ repo)%string /\
  Forall (eq (GITHUB_API ++ "/repos/" ++ fallback_full_name cfg environ repo)%string)
    (checked_urls (trace_of (fork_github_repo (owner ++ "/" ++ repo)
                               token cfg environ w))) /\
  (forall name,
      result_of (fork_github_repo (owner ++ "/" ++ repo) token cfg environ w)
        = inr name ->
      name = JStr (fallback_full_name cfg environ repo)).
Proof.
  intros Ho Hpost Hver Hjson Hget Hv.
  destruct (fork_accepted_run owner repo token cfg environ w r w1 d Ho Hpost Hver Hjson)
    as (ev & Hev & Hrun).
  change (owner ++ "/" ++ repo)%string with (owner ++ String "/" repo)%string.
  rewrite (Hrun (JStr (fallback_full_name cfg environ repo))).
  - now apply (named_poll_run (JStr (fallback_full_name cfg environ repo)) ev).
  - rewrite Hget, Hv. reflexivity.
Qed.

(** X9. A run of [fork_github_repo] sleeps 2 seconds at a time, at most
    ten times and never more often than it checks: at most 20 seconds in
    all; when it returns a name it has slept once less than it has
    checked. *)
Theorem fork_sleep_bounded source token cfg environ w :
  slept_seconds (trace_of (fork_github_repo source token cfg environ w))
    = (2 * Z.of_nat (sleeps (trace_of (fork_github_repo source token cfg environ w))))%Z /\
  (slept_seconds (trace_of (fork_github_repo source token cfg environ w)) <= 20)%Z /\
  sleeps (trace_of (fork_github_repo source token cfg environ w))
    <= checks (trace_of (fork_github_repo source token cfg environ w)) /\
  (forall name,
      result_of (fork_github_repo source token cfg environ w) = inr name ->
      checks (trace_of (fork_github_repo source token cfg environ w))
        = S (sleeps (trace_of (fork_github_repo source token cfg environ w)))).
Proof.
  pose proof (fork_github_repo_checks_le source token cfg environ w) as Hle.
  revert Hle. rewrite fork_github_repo_eq.
  destruct (unpack2 _) as [e|[owner repo]];
    [intros _; repeat split; (discriminate || reflexivity || (cbn; lia))|].
  cbv zeta.
  destruct (requests_post _ _ _ w) as [[msg|r] w1];
    [intros _; repeat split; (discriminate || reflexivity || (cbn; lia))|].
  destruct (verify_response r (mime_arg cfg));
    [intros _; repeat split; (discriminate || reflexivity || (cbn; lia))|].
  destruct (resp_json r) as [e|fork_info];
    [intros _; repeat split; (discriminate || reflexivity || (cbn; lia))|].
  destruct (py_get fork_info "full_name") as [e|full_name];
    [intros _; repeat split; (discriminate || reflexivity || (cbn; lia))|].
  match goal with |- context [poll ?a ?b ?c ?d] =>
    pose proof (poll_shape a b c d) as Hs;
    destruct (poll a b c d) as [[[e|[]] w2] t]
  end; unfold result_of, trace_of, checks, sleeps in *;
    cbn [fst snd filter is_get is_sleep is_post length slept_seconds] in *;
    destruct Hs as (H1 & H2 & H3 & H4); intros Hle.
  - repeat split; try lia. discriminate.
  - destruct (H4 eq_refl) as [H5 _]. repeat split; lia.
Qed.

(** X10. When [fork_github_repo] returns a name, the last thing it did was
    to get status 200 from that very repository with the caller's token;
    nothing follows the successful check. *)
Theorem returned_name_was_seen source token cfg environ w (name : json) :
  result_of (fork_github_repo source token cfg environ w) = inr name ->
  exists t rr,
    trace_of (fork_github_repo source token cfg environ w)
      = t ++ [EvGet (repo_url name) (auth_headers token) (inr rr)] /\
    status_code rr = 200%Z.
Proof.
  rewrite fork_github_repo_eq.
  destruct (unpack2 _) as [e|[owner repo]]; [discriminate|]. cbv zeta.
  destruct (requests_post _ _ _ w) as [[msg|r] w1]; [discriminate|].
  destruct (verify_response r (mime_arg cfg)); [discriminate|].
  destruct (resp_json r) as [e|fork_info]; [discriminate|].
  destruct (py_get fork_info "full_name") as [e|full_name]; [discriminate|].
  match goal with |- context [poll ?a ?b ?c ?d] =>
    pose proof (poll_shape a b c d) as Hs;
    destruct (poll a b c d) as [[[e|[]] w2] t]
  end; [discriminate|].
  destruct Hs as (_ & _ & _ & H4). destruct (H4 eq_refl) as (_ & t' & rr & Ht & Hst).
  unfold result_of, trace_of in *. cbn [fst snd] in *. intros [= <-].
  subst t. eexists (_ :: t'), rr. split; [reflexivity|assumption].
Qed.

(** ** [ensure_github_release] *)

(** [ensure_github_release] with its sequencing spelled out. *)
Lemma ensure_github_release_eq (name : json) token cfg w :
  ensure_github_release name token cfg w =
  let h := auth_headers token in
  let url := (repo_url name ++ "/releases")%string in
  match requests_get url h w with
  | (inl msg, w1) => (inl (RequestException msg), w1, [EvGet url h (inl msg)])
  | (inr r, w1) =>
      let ev := EvGet url h (inr r) in
      match verify_response r (mime_arg cfg) with
      | inl e => (inl e, w1, [ev])
      | inr _ =>
          match resp_json r with
          | inl e => (inl e, w1, [ev])
          | inr releases =>
              if truthy releases then
                match py_item0 releases with
                | inl e => (inl e, w1, [ev])
                | inr first =>
                    match py_get first "html_url" with
                    | inl e => (inl e, w1, [ev])
                    | inr v => (inr v, w1, [ev])
                    end
                end
              else
                let payload :=
                  JDict [("tag_name", JStr (release_tag cfg));
                         ("name", JStr (release_name cfg));
                         ("body", JStr (release_body cfg));
                         ("draft", JBool false);
                         ("prerelease", JBool false)]%string in
                match requests_post url h payload w1 with
                | (inl msg, w2) =>
                    (inl (RequestException msg), w2,
                     [ev; EvPost url h payload (inl msg)])
                | (inr r2, w2) =>
                    let ev2 := EvPost url h payload (inr r2) in
                    match verify_response r2 (mime_arg cfg) with
                    | inl e => (inl e, w2, [ev; ev2])
                    | inr _ =>
                        match resp_json r2 with
                        | inl e => (inl e, w2, [ev; ev2])
                        | inr v =>
                            match py_get v "html_url" with
                            | inl e => (inl e, w2, [ev; ev2])
                            | inr u => (inr u, w2, [ev; ev2])
                            end
                        end
                    end
                end
          end
      end
  end.
Proof.
  unfold ensure_github_release, bind, lift, get, post, ret, raise. cbv zeta.
  destruct (requests_get _ _ w) as [[msg|r] w1]; [reflexivity|].
  destruct (verify_response r (mime_arg cfg)); [reflexivity|].
  destruct (resp_json r) as [e|releases]; [reflexivity|].
  destruct (truthy releases).
  - destruct (py_item0 releases) as [e|first]; [reflexivity|].
    destruct (py_get first "html_url"); reflexivity.
  - destruct (requests_post _ _ _ w1) as [[msg|r2] w2]; [reflexivity|].
    destruct (verify_response r2 (mime_arg cfg)); [reflexivity|].
    destruct (resp_json r2) as [e|v]; [reflexivity|].
    destruct (py_get v "html_url"); reflexivity.
Qed.

(** X11. [ensure_github_release] lists the releases exactly once and sends at
    most one creation request; it sends one exactly when the listing was
    answered, passed [verify_response] and was a falsy JSON value (an empty
    list, for GitHub). A listing that fails or that holds anything never
    leads to a creation. *)
Theorem release_created_only_when_none (name : json) token cfg w :
  checks (trace_of (ensure_github_release name token cfg w)) = 1 /\
  posts (trace_of (ensure_github_release name token cfg w)) <= 1 /\
  (posts (trace_of (ensure_github_release name token cfg w)) = 1 <->
   exists r w1 releases,
     requests_get (repo_url name ++ "/releases") (auth_headers token) w = (inr r, w1) /\
     verify_response r (mime_arg cfg) = inr true /\
     json_body r = Some releases /\
     truthy releases = false).
Proof.
  assert (Hno : forall (x : (exn + json) * World * list event) (P : Prop) ev,
             is_get ev = true -> trace_of x = [ev] -> ~ P ->
             checks (trace_of x) = 1 /\ posts (trace_of x) <= 1 /\
             (posts (trace_of x) = 1 <-> P)).
  { intros x P ev Hev -> HP. destruct ev; try discriminate.
    unfold checks, posts. cbn. repeat split; try lia; tauto. }
  assert (Hyes : forall (x : (exn + json) * World * list event) (P : Prop) ev ev2,
             is_get ev = true -> is_post ev2 = true -> trace_of x = [ev; ev2] -> P ->
             checks (trace_of x) = 1 /\ posts (trace_of x) <= 1 /\
             (posts (trace_of x) = 1 <-> P)).
  { intros x P ev ev2 Hev Hev2 -> HP.
    destruct ev; try discriminate; destruct ev2; try discriminate.
    unfold checks, posts. cbn. repeat split; try lia; tauto. }
  rewrite ensure_github_release_eq. cbv zeta.
  destruct (requests_get _ _ w) as [[msg|r] w1] eqn:Eg.
  { eapply Hno; [|reflexivity|]; [reflexivity|].
    intros (r & w1' & v & [=] & _). }
  destruct (verify_response r (mime_arg cfg)) as [e|b] eqn:Ev.
  { eapply Hno; [|reflexivity|]; [reflexivity|].
    intros (r' & w1' & v & [= <- <-] & Hv & _). congruence. }
  destruct (verify_response_inv _ _ _ Ev) as (-> & _).
  unfold resp_json. destruct (json_body r) as [releases|] eqn:Ej.
  2:{ eapply Hno; [|reflexivity|]; [reflexivity|].
      intros (r' & w1' & v & [= <- <-] & _ & Hj & _). congruence. }
  destruct (truthy releases) eqn:Et.
  - assert (HnP : ~ exists r0 w0 releases0,
               (@inr string Response r, w1) = (inr r0, w0) /\
               verify_response r0 (mime_arg cfg) = inr true /\
               json_body r0 = Some releases0 /\ truthy releases0 = false).
    { intros (r' & w1' & v & [= <- <-] & _ & Hj & Hf). congruence. }
    destruct (py_item0 releases) as [e|first];
      [eapply Hno; [|reflexivity|]; [reflexivity|exact HnP]|].
    destruct (py_get first "html_url");
      (eapply Hno; [|reflexivity|]; [reflexivity|exact HnP]).
  - assert (HP : exists r0 w0 releases0,
               (@inr string Response r, w1) = (inr r0, w0) /\
               verify_response r0 (mime_arg cfg) = inr true /\
               json_body r0 = Some releases0 /\ truthy releases0 = false)
      by (now exists r, w1, releases).
    destruct (requests_post _ _ _ w1) as [[msg|r2] w2];
      [eapply Hyes; [| |reflexivity|]; [reflexivity|reflexivity|exact HP]|].
    destruct (verify_response r2 (mime_arg cfg));
      [eapply Hyes; [| |reflexivity|]; [reflexivity|reflexivity|exact HP]|].
    destruct (match json_body r2 with Some v => inr v | None => inl JSONDecodeError end)
      as [e|v]; [eapply Hyes; [| |reflexivity|]; [reflexivity|reflexivity|exact HP]|].
    destruct (py_get v "html_url");
      (eapply Hyes; [| |reflexivity|]; [reflexivity|reflexivity|exact HP]).
Qed.

(** X12. Whatever the configuration file holds, a release that
    [ensure_github_release] creates has a non-empty tag, name and body and
    is neither a draft nor a prerelease. *)
Theorem created_release_is_named
    (findtext : string -> option string) (name : json) token w url h payload r :
  In (EvPost url h payload r)
     (trace_of (ensure_github_release name token (load_config findtext) w)) ->
  exists tag title body,
    payload = JDict [("tag_name", JStr tag); ("name", JStr title);
                     ("body", JStr body); ("draft", JBool false);
                     ("prerelease", JBool false)]%string /\
    tag <> ""%string /\ title <> ""%string /\ body <> ""%string.
Proof.
  assert (Hok : exists tag title body,
             JDict [("tag_name", JStr (release_tag (load_config findtext)));
                    ("name", JStr (release_name (load_config findtext)));
                    ("body", JStr (release_body (load_config findtext)));
                    ("draft", JBool false); ("prerelease", JBool false)]%string
             = JDict [("tag_name", JStr tag); ("name", JStr title);
                      ("body", JStr body); ("draft", JBool false);
                      ("prerelease", JBool false)]%string /\
             tag <> ""%string /\ title <> ""%string /\ body <> ""%string).
  { eexists _, _, _. split; [reflexivity|].
    repeat split; apply findtext_or_nonempty; discriminate. }
  rewrite ensure_github_release_eq. cbv zeta.
  destruct (requests_get _ _ w) as [[msg|r1] w1];
    [intros [[=]|[]]|].
  destruct (verify_response r1 _); [intros [[=]|[]]|].
  destruct (resp_json r1) as [e|releases]; [intros [[=]|[]]|].
  destruct (truthy releases).
  - destruct (py_item0 releases) as [e|first]; [intros [[=]|[]]|].
    destruct (py_get first "html_url"); intros [[=]|[]].
  - destruct (requests_post _ _ _ w1) as [[msg|r2] w2];
      [intros [[=]|[[= _ _ <- _]|[]]]; exact Hok|].
    destruct (verify_response r2 _);
      [intros [[=]|[[= _ _ <- _]|[]]]; exact Hok|].
    destruct (resp_json r2) as [e|v];
      [intros [[=]|[[= _ _ <- _]|[]]]; exact Hok|].
    destruct (py_get v "html_url");
      intros [[=]|[[= _ _ <- _]|[]]]; exact Hok.
Qed.

(** ** [quote] *)

Lemma occurs_app c (a b : string) :
  occurs c (a ++ b)%string = occurs c a || occurs c b.
Proof.
  induction a as [|x a IH]; [reflexivity|]. simpl. now rewrite IH, orb_assoc.
Qed.

Lemma hex_digit_unreserved n : unreserved (hex_digit n) = true.
Proof. do 15 (destruct n as [|n]; [reflexivity|]). reflexivity. Qed.

Lemma occurs_percent c byte :
  occurs c (percent byte) = true -> c = "%"%char \/ unreserved c = true.
Proof.
  unfold percent. cbn [occurs]. rewrite !orb_true_iff, !Ascii.eqb_eq.
  intros [<-|[<-|[<-|H]]]; [now left| | |discriminate H];
    right; apply hex_digit_unreserved.
Qed.

Lemma quote_chars c : forall s,
  occurs c (quote s) = true -> c = "%"%char \/ unreserved c = true.
Proof.
  induction s as [|x s IH]; [discriminate|].
  simpl. rewrite occurs_app, orb_true_iff. intros [H|H]; [|auto].
  destruct (unreserved x) eqn:Ex.
  - simpl in H. rewrite orb_false_r, Ascii.eqb_eq in H. subst. now right.
  - unfold utf8 in H. destruct (nat_of_ascii x <? 128)%nat.
    + simpl in H. now apply occurs_percent in H.
    + cbn [map String.concat] in H.
      rewrite occurs_app, orb_true_iff in H.
      destruct H as [H|H]; [now apply occurs_percent in H|].
      cbn [append] in H. now apply occurs_percent in H.
Qed.

(** X13. A quoted text holds nothing but letters, digits, [_.-~] and [%]:
    in particular no ['/'], ['?'], ['#'] or space, so that it is one
    segment of a URL path. *)
Theorem quote_is_one_segment (s : string) (c : ascii) :
  occurs c (quote s) = true -> c = "%"%char \/ unreserved c = true.
Proof. apply quote_chars. Qed.

(** ** [import_to_gitlab] *)

Lemma fields_get_namespace cfg owner repo :
  fields_get (gitlab_fields cfg owner repo) "namespace" "" = gitlab_ns cfg.
Proof.
  unfold gitlab_fields. simpl.
  destruct (gitlab_ns cfg =? "")%string eqn:E; simpl; [|reflexivity].
  apply String.eqb_eq in E. now rewrite E.
Qed.

(** [import_to_gitlab] with its sequencing spelled out. *)
Lemma import_to_gitlab_eq source token cfg w :
  import_to_gitlab source token cfg w =
  match unpack2 (py_split "/" (Some 1) source) with
  | inl e => (inl e, w, [])
  | inr (owner, repo) =>
      let h := [("PRIVATE-TOKEN", token)]%string in
      let fields := gitlab_fields cfg owner repo in
      let payload := JDict (map (fun kv => (fst kv, JStr (snd kv))) fields) in
      let url := (GITLAB_API ++ "/projects")%string in
      match requests_post_form url h fields w with
      | (inl msg, w1) => (inl (RequestException msg), w1, [EvPost url h payload (inl msg)])
      | (inr r, w1) =>
          let ev := EvPost url h payload (inr r) in
          if (status_code r =? 201)%Z then
            match resp_json r with
            | inl e => (inl e, w1, [ev])
            | inr v =>
                match py_get v "web_url" with
                | inl e => (inl e, w1, [ev])
                | inr u => (inr u, w1, [ev])
                end
            end
          else if (status_code r =? 409)%Z then
            let purl := gitlab_project_url fields repo in
            match requests_get purl h w1 with
            | (inl msg, w2) =>
                (inl (RequestException msg), w2, [ev; EvGet purl h (inl msg)])
            | (inr proj, w2) =>
                let ev2 := EvGet purl h (inr proj) in
                if (status_code proj =? 200)%Z then
                  match resp_json proj with
                  | inl e => (inl e, w2, [ev; ev2])
                  | inr v =>
                      match py_get v "web_url" with
                      | inl e => (inl e, w2, [ev; ev2])
                      | inr u => (inr u, w2, [ev; ev2])
                      end
                  end
                else (inr JNull, w2, [ev; ev2])
            end
          else
            (inr JNull,
             print (Stderr ("GitLab import response: " ++ str_of_Z (status_code r)
                              ++ " " ++ text r)) w1,
             [ev])
      end
  end.
Proof.
  unfold import_to_gitlab, bind, lift, get, post_form, print_line, ret, raise.
  destruct (unpack2 _) as [e|[owner repo]]; [reflexivity|]. cbv zeta.
  destruct (requests_post_form _ _ _ w) as [[msg|r] w1]; [reflexivity|].
  destruct (status_code r =? 201)%Z.
  { destruct (resp_json r) as [e|v]; [reflexivity|].
    destruct (py_get v "web_url"); reflexivity. }
  destruct (status_code r =? 409)%Z; [|reflexivity].
  destruct (requests_get _ _ w1) as [[msg|proj] w2]; [reflexivity|].
  destruct (status_code proj =? 200)%Z; [|reflexivity].
  destruct (resp_json proj) as [e|v]; [reflexivity|].
  destruct (py_get v "web_url"); reflexivity.
Qed.

Lemma resp_json_exn r e : resp_json r = inl e -> e = JSONDecodeError.
Proof. unfold resp_json. destruct (json_body r); now intros [= <-]. Qed.

Lemma py_get_exn v k e : py_get v k = inl e -> e = AttributeError.
Proof. destruct v; simpl; now intros [= <-]. Qed.

Lemma unpack2_exn source e :
  unpack2 (py_split "/" (Some 1) source) = inl e -> occurs "/" source = false.
Proof.
  destruct (occurs "/" source) eqn:Hs; [|reflexivity].
  destruct (occurs_split _ _ Hs) as (owner & repo & -> & Ho).
  now rewrite unpack_source.
Qed.

(** X14. No answer of GitLab makes [import_to_gitlab] raise for its status:
    the function raises only when [source] has no ['/'], when a request
    itself raises, or when an answer it reads (201, or 200 to the lookup) is
    not a JSON object. *)
Theorem import_raises_only source token cfg w (e : exn) :
  result_of (import_to_gitlab source token cfg w) = inl e ->
  occurs "/" source = false \/
  (exists msg, e = RequestException msg) \/
  e = JSONDecodeError \/ e = AttributeError.
Proof.
  rewrite import_to_gitlab_eq.
  destruct (unpack2 _) as [e0|[owner repo]] eqn:Eu.
  { intros _. left. eapply unpack2_exn; eauto. }
  cbv zeta.
  destruct (requests_post_form _ _ _ w) as [[msg|r] w1];
    [intros [= <-]; right; left; eauto|].
  destruct (status_code r =? 201)%Z.
  { destruct (resp_json r) as [e0|v] eqn:Ej;
      [intros [= <-]; apply resp_json_exn in Ej; auto|].
    destruct (py_get v "web_url") as [e0|u] eqn:Eg;
      [intros [= <-]; apply py_get_exn in Eg; auto|discriminate]. }
  destruct (status_code r =? 409)%Z; [|discriminate].
  destruct (requests_get _ _ w1) as [[msg|proj] w2];
    [intros [= <-]; right; left; eauto|].
  destruct (status_code proj =? 200)%Z; [|discriminate].
  destruct (resp_json proj) as [e0|v] eqn:Ej;
    [intros [= <-]; apply resp_json_exn in Ej; auto|].
  destruct (py_get v "web_url") as [e0|u] eqn:Eg;
    [intros [= <-]; apply py_get_exn in Eg; auto|discriminate].
Qed.

(** X15. [import_to_gitlab] looks a project up only after its import
    request was answered 409, and then once, under
    [GITLAB_API/projects/<segment>] where the segment is the quoted
    [namespace/repo] and holds no ['/']; the lookup carries the same token
    as the import request. *)
Theorem lookup_after_conflict source token cfg w url h (r : string + Response) :
  In (EvGet url h r) (trace_of (import_to_gitlab source token cfg w)) ->
  checks (trace_of (import_to_gitlab source token cfg w)) = 1 /\
  h = [("PRIVATE-TOKEN", token)]%string /\
  (exists owner repo,
      source = (owner ++ "/" ++ repo)%string /\
      occurs "/" owner = false /\
      url = (GITLAB_API ++ "/projects/" ++ quote (gitlab_ns cfg ++ "/" ++ repo))%string /\
      occurs "/" (quote (gitlab_ns cfg ++ "/" ++ repo)) = false) /\
  (exists purl payload rr t,
      trace_of (import_to_gitlab source token cfg w)
        = EvPost purl h payload (inr rr) :: t /\
      status_code rr = 409%Z).
Proof.
  rewrite import_to_gitlab_eq.
  destruct (unpack2 _) as [e0|[owner repo]] eqn:Eu; [intros []|].
  assert (Hsrc : source = (owner ++ "/" ++ repo)%string /\ occurs "/" owner = false).
  { destruct (occurs "/" source) eqn:Hs.
    - destruct (occurs_split _ _ Hs) as (o & p & -> & Ho).
      rewrite unpack_source in Eu by assumption. injection Eu as <- <-. now split.
    - rewrite py_split_without in Eu by assumption. discriminate. }
  assert (Hseg : occurs "/" (quote (gitlab_ns cfg ++ "/" ++ repo)) = false).
  { destruct (occurs "/" (quote _)) eqn:E; [|reflexivity].
    apply quote_chars in E. destruct E as [E|E]; discriminate. }
  cbv zeta. unfold gitlab_project_url. rewrite fields_get_namespace.
  destruct (requests_post_form _ _ _ w) as [[msg|rr] w1]; [intros [[=]|[]]|].
  destruct (status_code rr =? 201)%Z.
  { destruct (resp_json rr) as [e0|v]; [intros [[=]|[]]|].
    destruct (py_get v "web_url"); intros [[=]|[]]. }
  destruct (status_code rr =? 409)%Z eqn:E409; [|intros [[=]|[]]].
  apply Z.eqb_eq in E409.
  assert (Hgoal : forall x : (exn + json) * World * list event,
             (exists ev2, is_get ev2 = true /\
                trace_of x = [EvPost (GITLAB_API ++ "/projects")%string
                                [("PRIVATE-TOKEN", token)]%string
                                (JDict (map (fun kv => (fst kv, JStr (snd kv)))
                                          (gitlab_fields cfg owner repo)))
                                (inr rr); ev2] /\
                event_url ev2
                  = Some (GITLAB_API ++ "/projects/"
                            ++ quote (gitlab_ns cfg ++ "/" ++ repo))%string /\
                event_headers ev2 = Some [("PRIVATE-TOKEN", token)]%string) ->
             In (EvGet url h r) (trace_of x) ->
             checks (trace_of x) = 1 /\
             h = [("PRIVATE-TOKEN", token)]%string /\
             (exists owner0 repo0,
                 source = (owner0 ++ "/" ++ repo0)%string /\
                 occurs "/" owner0 = false /\
                 url = (GITLAB_API ++ "/projects/"
                          ++ quote (gitlab_ns cfg ++ "/" ++ repo0))%string /\
                 occurs "/" (quote (gitlab_ns cfg ++ "/" ++ repo0)) = false) /\
             (exists purl payload rr0 t,
                 trace_of x = EvPost purl h payload (inr rr0) :: t /\
                 status_code rr0 = 409%Z)).
  { intros x (ev2 & Hev2 & -> & Hurl & Hh) [[=]|[->|[]]].
    cbn [event_url event_headers] in Hurl, Hh.
    injection Hurl as ->. injection Hh as ->.
    split; [reflexivity|]. split; [reflexivity|]. split.
    - exists owner, repo. tauto.
    - do 4 eexists. split; [reflexivity|assumption]. }
  destruct (requests_get _ _ w1) as [[msg|proj] w2];
    [apply Hgoal; eexists; repeat split; reflexivity|].
  destruct (status_code proj =? 200)%Z;
    [|apply Hgoal; eexists; repeat split; reflexivity].
  destruct (resp_json proj) as [e0|v];
    [apply Hgoal; eexists; repeat split; reflexivity|].
  destruct (py_get v "web_url"); apply Hgoal; eexists; repeat split; reflexivity.
Qed.

(** ** [main] *)

(** The requests of a poll all go to its URL with its headers. *)
Lemma poll_events rng url h w ev :
  In ev (trace_of (poll rng url h w)) ->
  ev = EvSleep 2 \/ exists r, ev = EvGet url h r.
Proof.
  revert w; induction rng as [|i rng IH]; intros w; [intros []|].
  rewrite poll_step.
  destruct (requests_get url h w) as [[msg|rr] w1]; [intros [<-|[]]; eauto|].
  destruct (status_code rr =? 200)%Z; [intros [<-|[]]; eauto|].
  specialize (IH (time_sleep 2 w1)).
  destruct (poll rng url h (time_sleep 2 w1)) as [[r w2] t].
  intros [<-|[<-|Hin]]; eauto.
Qed.

(** Every request of [fork_github_repo] carries the caller's token to a URL
    under [GITHUB_API]. *)
Lemma fork_github_repo_events source token cfg environ w ev u hh :
  In ev (trace_of (fork_github_repo source token cfg environ w)) ->
  event_url ev = Some u -> event_headers ev = Some hh ->
  hh = auth_headers token /\ String.prefix GITHUB_API u = true.
Proof.
  destruct (fork_github_repo_run source token cfg environ w)
    as [(e & _ & _ & Hposts)|(name & ev0 & w1 & Hev0 & Ht & _)].
  - revert Hposts. rewrite fork_github_repo_eq.
    destruct (unpack2 _) as [e0|[owner repo]]; [intros _ []|]. cbv zeta.
    destruct (requests_post _ _ _ w) as [[msg|r] w1];
      [intros _ [<-|[]] [= <-] [= <-]; split; reflexivity|].
    destruct (verify_response r (mime_arg cfg));
      [intros _ [<-|[]] [= <-] [= <-]; split; reflexivity|].
    destruct (resp_json r) as [e0|fork_info];
      [intros _ [<-|[]] [= <-] [= <-]; split; reflexivity|].
    destruct (py_get fork_info "full_name") as [e0|full_name];
      [intros _ [<-|[]] [= <-] [= <-]; split; reflexivity|].
    match goal with |- context [poll ?a ?b ?c ?d] =>
      pose proof (poll_starts_with_check 0 (seq 1 9) b c d) as (t' & Hhd);
      change (0 :: seq 1 9) with (range 10) in Hhd;
      destruct (poll a b c d) as [[[e0|[]] w2] t]
    end; unfold trace_of in *; cbn [snd] in *; subst t;
      intros Hposts; specialize (Hposts _ (or_intror (or_introl eq_refl)));
      discriminate Hposts.
  - revert Ht. rewrite fork_github_repo_eq.
    destruct (unpack2 _) as [e0|[owner repo]]; [discriminate|]. cbv zeta.
    destruct (requests_post _ _ _ w) as [[msg|r] w0].
    { intros [= <- Hnil]. intros [<-|[]] [= <-] [= <-]. split; reflexivity. }
    destruct (verify_response r (mime_arg cfg)).
    { intros [= <- Hnil]. intros [<-|[]] [= <-] [= <-]. split; reflexivity. }
    destruct (resp_json r) as [e0|fork_info].
    { intros [= <- Hnil]. intros [<-|[]] [= <-] [= <-]. split; reflexivity. }
    destruct (py_get fork_info "full_name") as [e0|full_name].
    { intros [= <- Hnil]. intros [<-|[]] [= <-] [= <-]. split; reflexivity. }
    match goal with |- context [poll ?a ?b ?c ?d] =>
      pose proof (fun e => poll_events a b c d e) as Hp;
      destruct (poll a b c d) as [[[e0|[]] w2] t]
    end; unfold trace_of in *; cbn [snd] in *; intros _;
      (intros [<-|Hin]; [intros [= <-] [= <-]; split; reflexivity|]);
      (destruct (Hp _ Hin) as [->|(r0 & ->)];
       [discriminate|intros [= <-] [= <-]; split; reflexivity]).
Qed.

Lemma ensure_github_release_events (name : json) token cfg w ev u hh :
  In ev (trace_of (ensure_github_release name token cfg w)) ->
  event_url ev = Some u -> event_headers ev = Some hh ->
  hh = auth_headers token /\ String.prefix GITHUB_API u = true.
Proof.
  assert (H1 : forall r ev0,
             In ev0 [EvGet (repo_url name ++ "/releases")%string (auth_headers token) r] ->
             event_url ev0 = Some u -> event_headers ev0 = Some hh ->
             hh = auth_headers token /\ String.prefix GITHUB_API u = true).
  { intros r ev0 [<-|[]] [= <-] [= <-]. split; reflexivity. }
  assert (H2 : forall r payload r2 ev0,
             In ev0 [EvGet (repo_url name ++ "/releases")%string (auth_headers token) r;
                     EvPost (repo_url name ++ "/releases")%string (auth_headers token)
                       payload r2] ->
             event_url ev0 = Some u -> event_headers ev0 = Some hh ->
             hh = auth_headers token /\ String.prefix GITHUB_API u = true).
  { intros r payload r2 ev0 [<-|[<-|[]]] [= <-] [= <-]; split; reflexivity. }
  rewrite ensure_github_release_eq. cbv zeta.
  destruct (requests_get _ _ w) as [[msg|r] w1]; [apply H1|].
  destruct (verify_response r (mime_arg cfg)); [apply H1|].
  destruct (resp_json r) as [e|releases]; [apply H1|].
  destruct (truthy releases).
  - destruct (py_item0 releases) as [e|first]; [apply H1|].
    destruct (py_get first "html_url"); apply H1.
  - destruct (requests_post _ _ _ w1) as [[msg|r2] w2]; [apply H2|].
    destruct (verify_response r2 (mime_arg cfg)); [apply H2|].
    destruct (resp_json r2) as [e|v]; [apply H2|].
    destruct (py_get v "html_url"); apply H2.
Qed.

Lemma import_to_gitlab_events source token cfg w ev u hh :
  In ev (trace_of (import_to_gitlab source token cfg w)) ->
  event_url ev = Some u -> event_headers ev = Some hh ->
  hh = [("PRIVATE-TOKEN", token)]%string /\ String.prefix GITLAB_API u = true.
Proof.
  rewrite import_to_gitlab_eq.
  destruct (unpack2 _) as [e0|[owner repo]]; [intros []|]. cbv zeta.
  assert (H1 : forall payload r ev0,
             In ev0 [EvPost (GITLAB_API ++ "/projects")%string
                       [("PRIVATE-TOKEN", token)]%string payload r] ->
             event_url ev0 = Some u -> event_headers ev0 = Some hh ->
             hh = [("PRIVATE-TOKEN", token)]%string /\ String.prefix GITLAB_API u = true).
  { intros payload r ev0 [<-|[]] [= <-] [= <-]. split; reflexivity. }
  assert (H2 : forall payload r r2 ev0,
             In ev0 [EvPost (GITLAB_API ++ "/projects")%string
                       [("PRIVATE-TOKEN", token)]%string payload r;
                     EvGet (gitlab_project_url (gitlab_fields cfg owner repo) repo)
                       [("PRIVATE-TOKEN", token)]%string r2] ->
             event_url ev0 = Some u -> event_headers ev0 = Some hh ->
             hh = [("PRIVATE-TOKEN", token)]%string /\ String.prefix GITLAB_API u = true).
  { intros payload r r2 ev0 [<-|[<-|[]]] [= <-] [= <-]; split; reflexivity. }
  destruct (requests_post_form _ _ _ w) as [[msg|r] w1]; [apply H1|].
  destruct (status_code r =? 201)%Z.
  { destruct (resp_json r) as [e0|v]; [apply H1|].
    destruct (py_get v "web_url"); apply H1. }
  destruct (status_code r =? 409)%Z; [|apply H1].
  destruct (requests_get _ _ w1) as [[msg|proj] w2]; [apply H2|].
  destruct (status_code proj =? 200)%Z; [|apply H2].
  destruct (resp_json proj) as [e0|v]; [apply H2|].
  destruct (py_get v "web_url"); apply H2.
Qed.

(** The four ways a run of [main] goes. *)
Lemma main_run source findtext environ w :
  (env_set (environ "GITHUB_TOKEN") = false /\
   fst (fst (main source findtext environ w)) = 3%Z /\
   snd (main source findtext environ w) = [])
  \/
  (env_set (environ "GITHUB_TOKEN") = true /\
   exists w0 t1,
     t1 = trace_of (fork_github_repo source (env_value (environ "GITHUB_TOKEN"))
                      (load_config findtext) environ w0) /\
     ((exists e,
          result_of (fork_github_repo source (env_value (environ "GITHUB_TOKEN"))
                       (load_config findtext) environ w0) = inl e /\
          fst (fst (main source findtext environ w)) = 4%Z /\
          snd (main source findtext environ w) = t1)
      \/
      (exists name w1 t2,
          result_of (fork_github_repo source (env_value (environ "GITHUB_TOKEN"))
                       (load_config findtext) environ w0) = inr name /\
          t2 = trace_of (ensure_github_release name (env_value (environ "GITHUB_TOKEN"))
                           (load_config findtext) w1) /\
          ((exists e,
               result_of (ensure_github_release name
                            (env_value (environ "GITHUB_TOKEN"))
                            (load_config findtext) w1) = inl e /\
               fst (fst (main source findtext environ w)) = 4%Z /\
               snd (main source findtext environ w) = t1 ++ t2)
           \/
           (exists release_url t3,
               result_of (ensure_github_release name
                            (env_value (environ "GITHUB_TOKEN"))
                            (load_config findtext) w1) = inr release_url /\
               fst (fst (main source findtext environ w)) = 0%Z /\
               snd (main source findtext environ w) = t1 ++ t2 ++ t3 /\
               ((env_set (environ "GITLAB_TOKEN") = false /\ t3 = []) \/
                (env_set (environ "GITLAB_TOKEN") = true /\
                 exists w2,
                   t3 = trace_of (import_to_gitlab source
                                    (env_value (environ "GITLAB_TOKEN"))
                                    (load_config findtext) w2)))))))).
Proof.
  unfold main. cbv zeta.
  destruct (env_set (environ "GITHUB_TOKEN")); cbn [negb];
    [right|left; repeat split].
  split; [reflexivity|].
  exists (print (Stdout ("Forking on GitHub: " ++ source)%string) w).
  eexists. split; [reflexivity|].
  destruct (fork_github_repo _ _ _ _ _) as [[[e|name] w1] t1];
    [left; exists e; repeat split|].
  right.
  exists name, (print (Stdout ("Fork created: " ++ py_format name)%string) w1).
  eexists. split; [reflexivity|]. split; [reflexivity|].
  destruct (ensure_github_release _ _ _ _) as [[[e|release_url] w2] t2];
    [left; exists e; repeat split|].
  right. exists release_url.
  destruct (env_set (environ "GITLAB_TOKEN")).
  - destruct (import_to_gitlab _ _ _ _) as [[[e|gl_url] w3] t3] eqn:Ei.
    + exists t3. repeat split. right. split; [reflexivity|].
      eexists. rewrite Ei. reflexivity.
    + exists t3. repeat split. right. split; [reflexivity|].
      eexists. rewrite Ei. reflexivity.
  - exists []. repeat split. now left.
Qed.

(** X16. Without a GitHub token - [GITHUB_TOKEN] unset or empty - [main] ends
    with status 3 and has sent no request; with one it never ends with
    status 3. *)
Theorem main_needs_github_token source findtext environ w :
  (env_set (environ "GITHUB_TOKEN") = false ->
   fst (fst (main source findtext environ w)) = 3%Z /\
   snd (main source findtext environ w) = []) /\
  (fst (fst (main source findtext environ w)) = 3%Z ->
   env_set (environ "GITHUB_TOKEN") = false).
Proof.
  destruct (main_run source findtext environ w)
    as [(Hno & Hst & Ht)|(Hyes & w0 & t1 & _ & H)].
  - split; auto.
  - split; [congruence|].
    destruct H as [(e & _ & -> & _)|(name & w1 & t2 & _ & _ &
      [(e & _ & -> & _)|(u & t3 & _ & -> & _)])]; discriminate.
Qed.

(** X17. The two tokens stay with their hosts: every request that [main]
    sends either carries the GitHub token in the GitHub headers to a URL
    under [https://api.github.com], or carries the GitLab token in
    [PRIVATE-TOKEN] to a URL under [https://gitlab.com/api/v4]. *)
Theorem tokens_stay_with_their_host source findtext environ w ev u hh :
  In ev (snd (main source findtext environ w)) ->
  event_url ev = Some u ->
  event_headers ev = Some hh ->
  (hh = auth_headers (env_value (environ "GITHUB_TOKEN")) /\
   String.prefix GITHUB_API u = true)
  \/
  (hh = [("PRIVATE-TOKEN", env_value (environ "GITLAB_TOKEN"))]%string /\
   String.prefix GITLAB_API u = true).
Proof.
  destruct (main_run source findtext environ w)
    as [(_ & _ & ->)|(_ & w0 & t1 & Ht1 & H)]; [intros []|].
  assert (H1 : In ev t1 -> event_url ev = Some u -> event_headers ev = Some hh ->
               hh = auth_headers (env_value (environ "GITHUB_TOKEN")) /\
               String.prefix GITHUB_API u = true).
  { subst t1. apply fork_github_repo_events. }
  destruct H as [(e & _ & _ & ->)|(name & w1 & t2 & _ & Ht2 & H)]; [left; auto|].
  assert (H2 : In ev t2 -> event_url ev = Some u -> event_headers ev = Some hh ->
               hh = auth_headers (env_value (environ "GITHUB_TOKEN")) /\
               String.prefix GITHUB_API u = true).
  { subst t2. apply ensure_github_release_events. }
  destruct H as [(e & _ & _ & ->)|(url & t3 & _ & _ & -> & H)].
  - rewrite in_app_iff. intros [Hin|Hin]; left; auto.
  - rewrite !in_app_iff. intros [Hin|[Hin|Hin]]; [left; auto|left; auto|].
    destruct H as [[_ ->]|(_ & w2 & ->)]; [destruct Hin|].
    right. eapply import_to_gitlab_events; eauto.
Qed.






(** X20. The [RequireHmacSignature] setting is read and never used: two
    configuration files that differ only there give the same run of
    [main]. *)
Theorem require_hmac_is_ignored
    source (f1 f2 : string -> option string) environ w :
  (forall path : string,
      path <> "Verification/RequireHmacSignature"%string -> f1 path = f2 path) ->
  main source f1 environ w = main source f2 environ w.
Proof.
  intros H. unfold main, load_config, findtext_or, findtext_is_true.
  rewrite (H "GitHub/TargetOrg"%string) by discriminate.
  rewrite (H "GitHub/TargetUser"%string) by discriminate.
  rewrite (H "GitLab/TargetNamespace"%string) by discriminate.
  rewrite (H "ReleaseDefaults/Tag"%string) by discriminate.
  rewrite (H "ReleaseDefaults/Name"%string) by discriminate.
  rewrite (H "ReleaseDefaults/Body"%string) by discriminate.
  rewrite (H "Verification/RequireMimeType"%string) by discriminate.
  rewrite (H "Verification/AllowedMimeTypes"%string) by discriminate.
  generalize (match f1 "Verification/RequireHmacSignature"%string with
              | Some s => (s =? "true")%string
              | None => false
              end).
  generalize (match f2 "Verification/RequireHmacSignature"%string with
              | Some s => (s =? "true")%string
              | None => false
              end).
  intros b2 b1. reflexivity.
Qed.

End Extras.

(** * The further properties on scripted worlds *)

Lemma allowed_mime_clean_witness :
  "application/json" <> "" /\ strip "application/json" = "application/json" /\
  occurs "," "application/json" = false.
Proof.
  apply (allowed_mime_clean Terminal.strict_root "application/json").
  vm_compute. now left.
Defined.

Lemma verify_response_sound_witness :
  true = true /\ (200 <= status_code Terminal.json_answer < 300)%Z /\
  (forall l, Some ["application/json"] = Some l -> l <> [] ->
             In (content_type Terminal.json_answer) l).
Proof.
  apply (verify_response_sound Terminal.json_answer (Some ["application/json"]) true).
  reflexivity.
Defined.

Lemma mime_parameters_ignored_witness :
  verify_response Terminal.json_answer (Some ["application/json"])
    = verify_response Terminal.plain_json_answer (Some ["application/json"]).
Proof.
  apply (mime_parameters_ignored Terminal.plain_json_answer Terminal.json_answer
           "application/json" " charset=utf-8" (Some ["application/json"]));
    reflexivity.
Defined.

Lemma missing_content_type_rejected_witness :
  verify_response (Fake.response 200 None) (mime_arg (load_config Terminal.strict_root))
    = inl (RuntimeError "Unexpected MIME type: ").
Proof.
  apply (missing_content_type_rejected Terminal.strict_root (Fake.response 200 None)).
  - reflexivity.
  - vm_compute. discriminate.
  - simpl. lia.
  - reflexivity.
Defined.

Lemma checks_need_accepted_creation_witness :
  exists url h payload r d t,
    trace_of (fork_github_repo "octo/hello" "tok" Fake.cfg Fake.no_environ
                Fake.never_ready)
      = EvPost url h payload (inr r) :: t /\
    (200 <= status_code r < 300)%Z /\
    json_body r = Some (JDict d).
Proof.
  apply (checks_need_accepted_creation "octo/hello" "tok" Fake.cfg Fake.no_environ
           Fake.never_ready).
  vm_compute. lia.
Defined.

Lemma response_name_is_polled_witness :
  hd_error (checked_urls (trace_of (fork_github_repo ("octo" ++ "/" ++ "hello")
                                      "tok" Fake.cfg Fake.no_environ
                                      (Terminal.net Terminal.named_bob))))
    = Some (GITHUB_API ++ "/repos/" ++ "bob/hello") /\
  Forall (eq (GITHUB_API ++ "/repos/" ++ "bob/hello"))
    (checked_urls (trace_of (fork_github_repo ("octo" ++ "/" ++ "hello")
                               "tok" Fake.cfg Fake.no_environ
                               (Terminal.net Terminal.named_bob)))) /\
  (forall name,
      result_of (fork_github_repo ("octo" ++ "/" ++ "hello") "tok" Fake.cfg
                   Fake.no_environ (Terminal.net Terminal.named_bob)) = inr name ->
      name = JStr "bob/hello").
Proof.
  eapply (response_name_is_polled "octo" "hello" "tok" Fake.cfg Fake.no_environ
            (Terminal.net Terminal.named_bob)).
  - reflexivity.
  - reflexivity.
  - reflexivity.
  - reflexivity.
  - reflexivity.
  - discriminate.
Defined.

Lemma falsy_name_falls_back_witness :
  hd_error (checked_urls (trace_of (fork_github_repo ("octo" ++ "/" ++ "hello")
                                      "tok" Fake.cfg Fake.no_environ
                                      (Terminal.net Terminal.null_name))))
    = Some (GITHUB_API ++ "/repos/" ++ "alice/hello") /\
  Forall (eq (GITHUB_API ++ "/repos/" ++ "alice/hello"))
    (checked_urls (trace_of (fork_github_repo ("octo" ++ "/" ++ "hello")
                               "tok" Fake.cfg Fake.no_environ
                               (Terminal.net Terminal.null_name)))) /\
  (forall name,
      result_of (fork_github_repo ("octo" ++ "/" ++ "hello") "tok" Fake.cfg
                   Fake.no_environ (Terminal.net Terminal.null_name)) = inr name ->
      name = JStr "alice/hello").
Proof.
  eapply (falsy_name_falls_back "octo" "hello" "tok" Fake.cfg Fake.no_environ
            (Terminal.net Terminal.null_name)).
  - reflexivity.
  - reflexivity.
  - reflexivity.
  - reflexivity.
  - reflexivity.
  - reflexivity.
Defined.

Lemma returned_name_was_seen_witness :
  exists t rr,
    trace_of (fork_github_repo "octo/hello" "tok" Fake.cfg Fake.no_environ Fake.unnamed)
      = (t ++ [EvGet (repo_url (JStr "alice/hello")) (auth_headers "tok") (inr rr)])%list /\
    status_code rr = 200%Z.
Proof.
  apply (returned_name_was_seen "octo/hello" "tok" Fake.cfg Fake.no_environ
           Fake.unnamed (JStr "alice/hello")).
  reflexivity.
Defined.

Lemma created_release_is_named_witness :
  exists tag title body,
    JDict [("tag_name", JStr "v0.0.1"); ("name", JStr "Initial release");
           ("body", JStr "Auto-created release"); ("draft", JBool false);
           ("prerelease", JBool false)]
    = JDict [("tag_name", JStr tag); ("name", JStr title);
             ("body", JStr body); ("draft", JBool false);
             ("prerelease", JBool false)] /\
    tag <> "" /\ title <> "" /\ body <> "".
Proof.
  eapply (created_release_is_named Terminal.empty_root (JStr "alice/hello") "tok"
            (Terminal.net Terminal.no_release)).
  vm_compute. right. left. reflexivity.
Defined.

Lemma quote_is_one_segment_witness :
  "%"%char = "%"%char \/ unreserved "%" = true.
Proof.
  apply (quote_is_one_segment "my group/hello" "%").
  reflexivity.
Defined.

Lemma import_raises_only_witness :
  occurs "/" "octo/hello" = false \/
  (exists msg, JSONDecodeError = RequestException msg) \/
  JSONDecodeError = JSONDecodeError \/ JSONDecodeError = AttributeError.
Proof.
  apply (import_raises_only "octo/hello" "gl" Fake.cfg Terminal.garbled).
  reflexivity.
Defined.

Lemma lookup_after_conflict_witness :
  checks (trace_of (import_to_gitlab "octo/hello" "gl" Fake.cfg Terminal.conflict)) = 1 /\
  [("PRIVATE-TOKEN", "gl")] = [("PRIVATE-TOKEN", "gl")] /\
  (exists owner repo,
      "octo/hello" = owner ++ "/" ++ repo /\
      occurs "/" owner = false /\
      "https://gitlab.com/api/v4/projects/%2Fhello"
        = GITLAB_API ++ "/projects/" ++ quote (gitlab_ns Fake.cfg ++ "/" ++ repo) /\
      occurs "/" (quote (gitlab_ns Fake.cfg ++ "/" ++ repo)) = false) /\
  (exists purl payload rr t,
      trace_of (import_to_gitlab "octo/hello" "gl" Fake.cfg Terminal.conflict)
        = EvPost purl [("PRIVATE-TOKEN", "gl")] payload (inr rr) :: t /\
      status_code rr = 409%Z).
Proof.
  eapply (lookup_after_conflict "octo/hello" "gl" Fake.cfg Terminal.conflict).
  vm_compute. right. left. reflexivity.
Defined.

Lemma main_needs_github_token_witness :
  fst (fst (main "octo/hello" Terminal.empty_root (Terminal.environ "" "gl")
              Terminal.all_goes_well)) = 3%Z /\
  snd (main "octo/hello" Terminal.empty_root (Terminal.environ "" "gl")
         Terminal.all_goes_well) = [].
Proof.
  apply (proj1 (main_needs_github_token "octo/hello" Terminal.empty_root
                  (Terminal.environ "" "gl") Terminal.all_goes_well)).
  reflexivity.
Defined.

Lemma tokens_stay_with_their_host_witness :
  ([("PRIVATE-TOKEN", "gl")] = auth_headers (env_value (Terminal.environ "gh" "gl" "GITHUB_TOKEN")) /\
   String.prefix GITHUB_API "https://gitlab.com/api/v4/projects/%2Fhello" = true)
  \/
  ([("PRIVATE-TOKEN", "gl")]
     = [("PRIVATE-TOKEN", env_value (Terminal.environ "gh" "gl" "GITLAB_TOKEN"))] /\
   String.prefix GITLAB_API "https://gitlab.com/api/v4/projects/%2Fhello" = true).
Proof.
  apply (tokens_stay_with_their_host "octo/hello" Terminal.empty_root
           (Terminal.environ "gh" "gl") Terminal.all_goes_well
           (EvGet "https://gitlab.com/api/v4/projects/%2Fhello" [("PRIVATE-TOKEN", "gl")]
              Terminal.project_found)).
  - vm_compute. do 6 right. left. reflexivity.
  - reflexivity.
  - reflexivity.
Defined.



Lemma require_hmac_is_ignored_witness :
  main "octo/hello" Terminal.strict_root (Terminal.environ "gh" "gl")
    Terminal.all_goes_well
  = main "octo/hello" Terminal.strict_root_hmac (Terminal.environ "gh" "gl")
      Terminal.all_goes_well.
Proof.
  apply (require_hmac_is_ignored "octo/hello" Terminal.strict_root
           Terminal.strict_root_hmac (Terminal.environ "gh" "gl") Terminal.all_goes_well).
  intros path Hp. unfold Terminal.strict_root_hmac.
  destruct (path =? "Verification/RequireHmacSignature") eqn:E; [|reflexivity].
  apply String.eqb_eq in E. contradiction.
Defined.

Lemma fork_sleep_bounded_witness :
  checks (trace_of (fork_github_repo "octo/hello" "tok" Fake.cfg Fake.no_environ
                      (Terminal.net Terminal.all_goes_well)))
  = S (sleeps (trace_of (fork_github_repo "octo/hello" "tok" Fake.cfg Fake.no_environ
                           (Terminal.net Terminal.all_goes_well)))).
Proof.
  apply (proj2 (proj2 (proj2 (fork_sleep_bounded "octo/hello" "tok" Fake.cfg
                                Fake.no_environ (Terminal.net Terminal.all_goes_well))))
           (JStr "alice/hello")).
  reflexivity.
Defined.

Lemma release_created_only_when_none_witness :
  posts (trace_of (ensure_github_release (JStr "alice/hello") "tok" Fake.cfg
                     (Terminal.net Terminal.no_release))) = 1.
Proof.
  apply (proj2 (proj2 (proj2 (release_created_only_when_none (JStr "alice/hello") "tok"
                                Fake.cfg (Terminal.net Terminal.no_release))))).
  eexists _, _, _. repeat split.
Defined.
